(** * The product query handler of the mock API server

    A shallow embedding of the [GET /api/products] route of [server.js]
    (the consolidated server) and of the custom server set-up, with the
    JavaScript arrays they work on kept in an explicit heap, so that an
    array shared with the store is told apart from a copy. *)

From Stdlib Require Import ZArith QArith String Ascii List Bool.
From Stdlib Require Import Sorted Permutation Lia Lqa.
From Stdlib Require OrdersEx DecimalString.
From stdpp Require Import base option gmap.
Import ListNotations.

Local Open Scope string_scope.
Local Open Scope list_scope.

(** ** JavaScript values used by the handlers *)

(** A JSON scalar that serves as an identifier: the data file may hold it
    as a string or as a number. *)
Inductive ident : Type :=
| IdStr (s : string)
| IdNum (n : Z).

(** The result of a numeric expression: a finite double, given by its exact
    rational value, or [NaN]. The difference of two finite doubles has the
    sign of their exact difference. *)
Inductive number : Type :=
| Finite (q : Q)
| NaN.

Record Product : Type := mkProduct {
  id : ident;
  categoryId : ident;
  name : string;
  description : option string;      (* [None]: the field is absent *)
  tags : option (list string);      (* [None]: the field is absent *)
  price : Q;
  originalPrice : Q;
  inStock : bool;
  rating : Q;
  createdAt : string
}.

(** ** String built-ins *)

Definition is_upper (c : ascii) : bool :=
  ((65 <=? nat_of_ascii c) && (nat_of_ascii c <=? 90))%nat.

Definition lower_char (c : ascii) : ascii :=
  if is_upper c then ascii_of_nat (nat_of_ascii c + 32) else c.

(** The letters A to Z lowered, every other code unit kept: what
    [String.prototype.toLowerCase] does to ASCII text. *)
Fixpoint lower_ascii (s : string) : string :=
  match s with
  | EmptyString => EmptyString
  | String c s' => String (lower_char c) (lower_ascii s')
  end.

(** Every code unit of the text is below 128. *)
Fixpoint ascii_text (s : string) : bool :=
  match s with
  | EmptyString => true
  | String c s' => (nat_of_ascii c <? 128)%nat && ascii_text s'
  end.

(** [needle] starts [s]. *)
Fixpoint startsWith (s needle : string) : bool :=
  match needle, s with
  | EmptyString, _ => true
  | String _ _, EmptyString => false
  | String a needle', String b s' => Ascii.eqb a b && startsWith s' needle'
  end.

(** [String.prototype.includes]: [needle] occurs somewhere in [s]. *)
Fixpoint includes (s needle : string) : bool :=
  startsWith s needle ||
  match s with
  | EmptyString => false
  | String _ s' => includes s' needle
  end.

(** Truthiness of a query parameter: absent and the empty string are
    falsy. *)
Definition truthy (o : option string) : bool :=
  match o with
  | Some s => negb (s =? "")
  | None => false
  end.

(** [o || d] for a query parameter [o] and a string literal [d]. *)
Definition or_default (o : option string) (d : string) : string :=
  match o with
  | Some s => if s =? "" then d else s
  | None => d
  end.

(** [v === s] where [s] is a string. *)
Definition strict_eq_string (v : ident) (s : string) : bool :=
  match v with
  | IdStr t => t =? s
  | IdNum _ => false
  end.

(** ** The runtime's case, locale and date services

    [String.prototype.toLowerCase], which follows the Unicode case tables,
    [String.prototype.localeCompare] and the [Date] constructor belong to
    the JavaScript runtime; the handlers are embedded over any runtime. *)
Class Runtime : Type := {
  (** the string [s.toLowerCase()] *)
  toLowerCase : string -> string;
  (** the number [s.localeCompare(t)] *)
  localeCompare : string -> string -> Z;
  (** the time value of [new Date(s)] in milliseconds, [None] for an
      invalid date, whose numeric value is [NaN] *)
  Date_parse : string -> option Z
}.

(** On ASCII text the case tables lower the letters A to Z and nothing
    else. *)
Class Lowercasing (R : Runtime) : Prop := {
  toLowerCase_ascii : forall s,
    ascii_text s = true -> toLowerCase s = lower_ascii s
}.

(** A collation orders strings: it is total and transitive. *)
Class Collation (R : Runtime) : Prop := {
  localeCompare_total : forall s t,
    (0 < localeCompare s t)%Z -> (localeCompare t s <= 0)%Z;
  localeCompare_trans : forall s t u,
    (localeCompare s t <= 0)%Z -> (localeCompare t u <= 0)%Z ->
    (localeCompare s u <= 0)%Z
}.

(** ** Arrays in the heap *)

Definition loc : Type := positive.

Abbreviation heap := (gmap positive (list Product)).

(** A computation either returns or throws an error with a message. *)
Inductive outcome (A : Type) : Type :=
| Return (a : A)
| Throw (message : string).
Arguments Return {A} a.
Arguments Throw {A} message.

Definition M (A : Type) : Type := heap -> outcome A * heap.

Definition ret {A} (a : A) : M A := fun h => (Return a, h).

Definition throw {A} (message : string) : M A := fun h => (Throw message, h).

Definition bind {A B} (m : M A) (k : A -> M B) : M B :=
  fun h =>
    match m h with
    | (Return a, h') => k a h'
    | (Throw e, h') => (Throw e, h')
    end.

(** [try { body } catch (error) { handler(error.message) }] *)
Definition try_catch {A} (body : M A) (handler : string -> M A) : M A :=
  fun h =>
    match body h with
    | (Return a, h') => (Return a, h')
    | (Throw e, h') => handler e h'
    end.

Notation "'let*' x ':=' m 'in' k" := (bind m (fun x => k))
  (at level 10, x name, m at level 100, k at level 200).

(** A new array holding [l]. *)
Definition alloc (l : list Product) : M loc :=
  fun h => let r := fresh (dom h) in (Return r, <[r := l]> h).

(** The elements of the array at [r]. *)
Definition contents (r : loc) : M (list Product) :=
  fun h =>
    match h !! r with
    | Some l => (Return l, h)
    | None => (Throw "dangling array reference", h)
    end.

(** [[...arr]] *)
Definition spread (r : loc) : M loc :=
  let* l := contents r in alloc l.

(** The elements kept by [Array.prototype.filter]: the callback runs on the
    elements from left to right and the first error it throws ends the
    call. *)
Fixpoint filter_elements (callback : Product -> outcome bool)
    (l : list Product) : outcome (list Product) :=
  match l with
  | [] => Return []
  | p :: l' =>
      match callback p with
      | Throw e => Throw e
      | Return keep =>
          match filter_elements callback l' with
          | Throw e => Throw e
          | Return kept => Return (if keep then p :: kept else kept)
          end
      end
  end.

(** [arr.filter(callback)] builds a new array. *)
Definition Array_filter (callback : Product -> outcome bool) (r : loc)
    : M loc :=
  let* l := contents r in
  match filter_elements callback l with
  | Return kept => alloc kept
  | Throw e => throw e
  end.

(** The sign the sort takes from a comparator's result: [NaN] counts
    as zero. *)
Definition sign (v : number) : comparison :=
  match v with
  | Finite q => (q ?= 0)%Q
  | NaN => Eq
  end.

(** [Array.prototype.sort] is a stable sort (ECMAScript 2019): under a
    consistent comparator its result is the one ordered rearrangement that
    keeps equal elements in their order, and that result is computed here
    by insertion: an element goes before the first one it does not compare
    greater than. Under a comparator that is not consistent (a [NaN] among
    other results) the language leaves the order to the engine, and only
    the elements of the result, not their order, are those of this
    function. *)
Fixpoint sort_insert (comparator : Product -> Product -> number)
    (x : Product) (l : list Product) : list Product :=
  match l with
  | [] => [x]
  | y :: l' =>
      match sign (comparator x y) with
      | Gt => y :: sort_insert comparator x l'
      | _ => x :: y :: l'
      end
  end.

Fixpoint sort_elements (comparator : Product -> Product -> number)
    (l : list Product) : list Product :=
  match l with
  | [] => []
  | x :: l' => sort_insert comparator x (sort_elements comparator l')
  end.

(** [arr.sort(comparator)] sorts the array in place and returns it. *)
Definition Array_sort (comparator : Product -> Product -> number) (r : loc)
    : M loc :=
  fun h =>
    match h !! r with
    | Some l => (Return r, <[r := sort_elements comparator l]> h)
    | None => (Throw "dangling array reference", h)
    end.

(** ** The request and the response *)

(** [req.query]: each parameter is a string or absent. *)
Record Query : Type := mkQuery {
  query_category : option string;
  query_sort : option string;
  query_filter : option string;
  query_search : option string
}.

(** A value of [req.query] as Express parses it: a string, or an array or
    object for a repeated or bracketed key. *)
Inductive param : Type :=
| Text (s : string)
| Structured.

(** [req.query] as [server.js] receives it. *)
Record ReqQuery : Type := mkReqQuery {
  req_category : option param;
  req_sort : option param;
  req_filter : option param;
  req_search : option param
}.

(** The parameter, when it is a string. *)
Definition text_of (o : option param) : option string :=
  match o with
  | Some (Text s) => Some s
  | _ => None
  end.

(** The query whose parameters are all strings, and the strings of a
    query. *)
Definition of_query (query : Query) : ReqQuery :=
  mkReqQuery (option_map Text (query_category query))
    (option_map Text (query_sort query))
    (option_map Text (query_filter query))
    (option_map Text (query_search query)).

Definition text_query (query : ReqQuery) : Query :=
  mkQuery (text_of (req_category query)) (text_of (req_sort query))
    (text_of (req_filter query)) (text_of (req_search query)).

(** The database object, with the one collection the products route
    reads; [products] is absent when the data has no such key. *)
Record Database : Type := mkDatabase {
  products : option loc
}.

Inductive Body : Type :=
| ProductList (l : list Product)
| ErrorObject (error : string) (message : option string).

Record Response : Type := mkResponse {
  status : nat;
  body : Body
}.

(** [res.json(products)] *)
Definition res_json (l : list Product) : Response :=
  mkResponse 200 (ProductList l).

(** [res.status(code).json({ error, message })] *)
Definition res_error (code : nat) (error : string) (message : option string)
    : Response :=
  mkResponse code (ErrorObject error message).

(** [o !== s] for a query parameter [o] and a string literal [s] *)
Definition strict_neq (o : option string) (s : string) : bool :=
  match o with
  | Some t => negb (t =? s)
  | None => true
  end.

(** [v === o] for a field [v] of a record and a query parameter [o] *)
Definition strict_eq (v : ident) (o : option string) : bool :=
  match o with
  | Some s => strict_eq_string v s
  | None => false
  end.

(** [a < b] on numbers *)
Definition less_than (a b : Q) : bool :=
  match (a ?= b)%Q with
  | Lt => true
  | _ => false
  end.

(** ** The stages shared by both servers *)

Section Handlers.

Context {R : Runtime}.

(** The [switch (sortBy)] of the sort comparator. *)
Definition compareFn (sortBy : string) (a b : Product) : number :=
  if sortBy =? "price-low" then Finite (price a - price b)
  else if sortBy =? "price-high" then Finite (price b - price a)
  else if sortBy =? "rating" then Finite (rating b - rating a)
  else if sortBy =? "newest" then
    match Date_parse (createdAt b), Date_parse (createdAt a) with
    | Some tb, Some ta => Finite (inject_Z (tb - ta))
    | _, _ => NaN
    end
  else Finite (inject_Z (localeCompare (name a) (name b))).

(** [if (categoryId && categoryId !== 'all') products = products.filter(...)] *)
Definition filterByCategory (category : option string) (products : loc)
    : M loc :=
  if truthy category && strict_neq category "all" then
    Array_filter
      (fun product => Return (strict_eq (categoryId product) category))
      products
  else ret products.

(** The two availability branches on [filterBy]. *)
Definition filterByAvailability (filterBy : string) (products : loc)
    : M loc :=
  if filterBy =? "in-stock" then
    Array_filter (fun product => Return (inStock product)) products
  else if filterBy =? "on-sale" then
    Array_filter
      (fun product =>
         Return (less_than (price product) (originalPrice product)))
      products
  else ret products.

(** [products.sort((a, b) => { switch (sortBy) ... })] *)
Definition sortProducts (sortBy : string) (products : loc) : M loc :=
  Array_sort (compareFn sortBy) products.

End Handlers.

(** ** [server.js]: the consolidated server *)

Module ServerJs.

Section Routes.

Context {R : Runtime}.

(** The search callback: [tags] is guarded, [description] is not. *)
Definition searchCallback (searchLower : string) (product : Product)
    : outcome bool :=
  if includes (toLowerCase (name product)) searchLower then Return true
  else
    match description product with
    | None =>
        Throw "Cannot read properties of undefined (reading 'toLowerCase')"
    | Some text =>
        if includes (toLowerCase text) searchLower then Return true
        else
          match tags product with
          | None => Return false
          | Some ts =>
              Return
                (existsb (fun tag => includes (toLowerCase tag) searchLower)
                   ts)
          end
    end.

(** [if (search) { ... products = products.filter(...) }] *)
Definition filterBySearch (search : option string) (products : loc)
    : M loc :=
  match search with
  | Some term =>
      if term =? "" then ret products
      else
        let searchLower := toLowerCase term in
        Array_filter (searchCallback searchLower) products
  | None => ret products
  end.

(** The handler of [GET /api/products]. *)
Definition products_handler (db : option Database) (query : Query)
    : M Response :=
  try_catch
    (let categoryId := query_category query in
     let sortBy := or_default (query_sort query) "name" in
     let filterBy := or_default (query_filter query) "all" in
     let search := query_search query in
     match db with
     | None => ret (res_error 500 "Database not loaded" None)
     | Some d =>
         match products d with
         | None => ret (res_error 500 "Database not loaded" None)
         | Some store =>
             let* products := spread store in
             let* products := filterByCategory categoryId products in
             let* products := filterByAvailability filterBy products in
             let* products := filterBySearch search products in
             let* products := sortProducts sortBy products in
             let* l := contents products in
             ret (res_json l)
         end
     end)
    (fun message =>
       ret (res_error 500 "Internal server error" (Some message))).

(** The category stage on [req.query.category]: an array or object is
    truthy, differs from 'all' and is strictly equal to no [categoryId]. *)
Definition filterByCategoryParam (category : option param) (products : loc)
    : M loc :=
  match category with
  | Some Structured => Array_filter (fun product => Return false) products
  | _ => filterByCategory (text_of category) products
  end.

(** The search stage on [req.query.search]: an array or object is truthy
    and has no [toLowerCase] method. *)
Definition filterBySearchParam (search : option param) (products : loc)
    : M loc :=
  match search with
  | Some Structured => throw "search.toLowerCase is not a function"
  | _ => filterBySearch (text_of search) products
  end.

(** The handler of [GET /api/products] on [req.query] as Express gives it.
    An array or object for [sort] takes the default branch of the switch,
    as "name" does, and for [filter] equals neither literal, as "all"
    does. On string parameters this is [products_handler]. *)
Definition products_route (db : option Database) (query : ReqQuery)
    : M Response :=
  try_catch
    (let categoryId := req_category query in
     let sortBy := or_default (text_of (req_sort query)) "name" in
     let filterBy := or_default (text_of (req_filter query)) "all" in
     let search := req_search query in
     match db with
     | None => ret (res_error 500 "Database not loaded" None)
     | Some d =>
         match products d with
         | None => ret (res_error 500 "Database not loaded" None)
         | Some store =>
             let* products := spread store in
             let* products := filterByCategoryParam categoryId products in
             let* products := filterByAvailability filterBy products in
             let* products := filterBySearchParam search products in
             let* products := sortProducts sortBy products in
             let* l := contents products in
             ret (res_json l)
         end
     end)
    (fun message =>
       ret (res_error 500 "Internal server error" (Some message))).

(** *** Loading the database *)

(** What reading and parsing [db.json] gives. *)
Inductive FileContent : Type :=
| Unreadable                                   (* the read or the parse throws *)
| ParsedNull                                   (* the file holds [null] *)
| ParsedObject (data : option (list Product)). (* an object, with or without
                                                  the [products] key *)

(** The [try]/[catch] around the load: a failure is logged and replaced by
    empty collections. Then [jsonServer.router(db)], outside the [try],
    rejects a database that is not an object: the module does not load. *)
Definition load (file : FileContent) : M (option Database) :=
  match file with
  | Unreadable =>
      let* store := alloc [] in ret (Some (mkDatabase (Some store)))
  | ParsedNull => throw "jsonServer.router: the database is not an object"
  | ParsedObject None => ret (Some (mkDatabase None))
  | ParsedObject (Some l) =>
      let* store := alloc l in ret (Some (mkDatabase (Some store)))
  end.

(** The server's life up to the answer to one request. *)
Definition serve (file : FileContent) (query : Query) : M Response :=
  let* db := load file in products_handler db query.

Definition serve_route (file : FileContent) (query : ReqQuery) : M Response :=
  let* db := load file in products_route db query.

End Routes.

End ServerJs.

(** ** The custom server set-up *)

Module CustomServer.

(** The module calls [cors(...)] at its top level and binds no [cors]:
    loading it throws before a route is registered. The handlers below are
    the text of the routes it would register. *)
Definition module_load : outcome unit := Throw "cors is not defined".

Section Routes.

Context {R : Runtime}.

(** The search callback: neither [description] nor [tags] is guarded. *)
Definition searchCallback (searchLower : string) (product : Product)
    : outcome bool :=
  if includes (toLowerCase (name product)) searchLower then Return true
  else
    match description product with
    | None =>
        Throw "Cannot read properties of undefined (reading 'toLowerCase')"
    | Some text =>
        if includes (toLowerCase text) searchLower then Return true
        else
          match tags product with
          | None =>
              Throw "Cannot read properties of undefined (reading 'some')"
          | Some ts =>
              Return
                (existsb (fun tag => includes (toLowerCase tag) searchLower)
                   ts)
          end
    end.

Definition filterBySearch (search : option string) (products : loc)
    : M loc :=
  match search with
  | Some term =>
      if term =? "" then ret products
      else
        let searchLower := toLowerCase term in
        Array_filter (searchCallback searchLower) products
  | None => ret products
  end.

(** The handler of [GET /api/products]: [db.get('products').value()] is the
    store's own array, and an error is not caught here. Without a [products]
    collection the first method called on [undefined] throws. *)
Definition products_handler (db : option Database) (query : Query)
    : M Response :=
  let categoryId := query_category query in
  let sortBy := or_default (query_sort query) "name" in
  let filterBy := or_default (query_filter query) "all" in
  let search := query_search query in
  match db with
  | None => ret (res_error 500 "Database not loaded" None)
  | Some d =>
      match products d with
      | None =>
          if (truthy categoryId && strict_neq categoryId "all")
             || (filterBy =? "in-stock") || (filterBy =? "on-sale")
             || truthy search
          then throw "Cannot read properties of undefined (reading 'filter')"
          else throw "Cannot read properties of undefined (reading 'sort')"
      | Some products =>
          let* products := filterByCategory categoryId products in
          let* products := filterByAvailability filterBy products in
          let* products := filterBySearch search products in
          let* products := sortProducts sortBy products in
          let* l := contents products in
          ret (res_json l)
      end
  end.

End Routes.

End CustomServer.

(** ** A runtime for ASCII data: code-unit collation, calendar dates *)

Module SampleRuntime.

Definition compare_strings (s t : string) : Z :=
  match OrdersEx.String_as_OT.compare s t with
  | Lt => (-1)%Z
  | Eq => 0%Z
  | Gt => 1%Z
  end.

Definition digit (c : ascii) : option Z :=
  let n := nat_of_ascii c in
  if ((48 <=? n) && (n <=? 57))%nat then Some (Z.of_nat (n - 48)) else None.

Fixpoint digits (acc : Z) (s : list ascii) : option Z :=
  match s with
  | [] => Some acc
  | c :: s' =>
      match digit c with
      | Some d => digits (10 * acc + d)%Z s'
      | None => None
      end
  end.

(** Days from 1970-01-01 to the civil date [y]-[m]-[d]. *)
Definition days_from_civil (y m d : Z) : Z :=
  let y' := if (m <=? 2)%Z then (y - 1)%Z else y in
  let era := (y' / 400)%Z in
  let yoe := (y' - era * 400)%Z in
  let mp := if (2 <? m)%Z then (m - 3)%Z else (m + 9)%Z in
  let doy := ((153 * mp + 2) / 5 + d - 1)%Z in
  let doe := (yoe * 365 + yoe / 4 - yoe / 100 + doy)%Z in
  (era * 146097 + doe - 719468)%Z.

(** The date-only form [YYYY-MM-DD], read as midnight UTC. *)
Definition parse_date (s : string) : option Z :=
  match list_ascii_of_string s with
  | [y1; y2; y3; y4; dash1; m1; m2; dash2; d1; d2] =>
      if Ascii.eqb dash1 "-" && Ascii.eqb dash2 "-" then
        match digits 0 [y1; y2; y3; y4], digits 0 [m1; m2], digits 0 [d1; d2]
        with
        | Some y, Some m, Some d =>
            if ((1 <=? m) && (m <=? 12) && (1 <=? d) && (d <=? 31))%Z
            then Some (days_from_civil y m d * 86400000)%Z
            else None
        | _, _, _ => None
        end
      else None
  | _ => None
  end.

#[export] Instance runtime : Runtime := {|
  toLowerCase := lower_ascii;
  localeCompare := compare_strings;
  Date_parse := parse_date
|}.

(** The two records of the specification's examples: neither has a
    [description] or [tags]. *)
Definition zeta : Product :=
  mkProduct (IdNum 1) (IdStr "a") "Zeta" None None
    50 50 true 3 "2023-01-01".

Definition alpha : Product :=
  mkProduct (IdNum 2) (IdStr "a") "Alpha" None None
    20 40 false 4 "2023-06-01".

(** Two complete records. *)
Definition widget : Product :=
  mkProduct (IdStr "w1") (IdStr "tools") "Blue Widget"
    (Some "A sturdy widget") (Some ["Hardware"; "blue"])
    (25 # 2) 15 true 4 "2024-02-29".

Definition gadget : Product :=
  mkProduct (IdStr "g1") (IdNum 7) "Gadget"
    (Some "Pocket gadget") None
    30 30 false (9 # 2) "2023-11-05".

Definition no_query : Query := mkQuery None None None None.

End SampleRuntime.

(** ** The Query Engine as a function on sequences

    What the handlers' array operations compute, stage by stage, on the
    elements of the array they start from. *)

Section QueryEngine.

Context {R : Runtime}.

Definition kept_by_category (category : option string) (l : list Product)
    : list Product :=
  if truthy category && strict_neq category "all" then
    List.filter (fun product => strict_eq (categoryId product) category) l
  else l.

Definition kept_by_availability (filterBy : string) (l : list Product)
    : list Product :=
  if filterBy =? "in-stock" then List.filter inStock l
  else if filterBy =? "on-sale" then
    List.filter
      (fun product => less_than (price product) (originalPrice product)) l
  else l.

Definition kept_by_search (callback : string -> Product -> outcome bool)
    (search : option string) (l : list Product) : outcome (list Product) :=
  match search with
  | Some term =>
      if term =? "" then Return l
      else filter_elements (callback (toLowerCase term)) l
  | None => Return l
  end.

Definition query_result (callback : string -> Product -> outcome bool)
    (query : Query) (l : list Product) : outcome (list Product) :=
  match
    kept_by_search callback (query_search query)
      (kept_by_availability (or_default (query_filter query) "all")
         (kept_by_category (query_category query) l))
  with
  | Return kept =>
      Return
        (sort_elements (compareFn (or_default (query_sort query) "name"))
           kept)
  | Throw e => Throw e
  end.

(** The result of the route on [req.query] as Express gives it. *)
Definition route_result (query : ReqQuery) (l : list Product)
    : outcome (list Product) :=
  match req_search query with
  | Some Structured => Throw "search.toLowerCase is not a function"
  | _ =>
      query_result ServerJs.searchCallback (text_query query)
        match req_category query with
        | Some Structured => []
        | _ => l
        end
  end.

End QueryEngine.

(** ** Words of the specification *)

(** [needle] is a substring of [s]. *)
Definition substring (needle s : string) : Prop :=
  exists before after, s = (before ++ needle ++ after)%string.

(** The search rule: the lowercased term is a substring of the lowercased
    name, or of the lowercased description, or of a lowercased tag. *)
Definition search_matches {R : Runtime} (term : string) (product : Product)
    : Prop :=
  substring (toLowerCase term) (toLowerCase (name product)) \/
  (exists text, description product = Some text /\
     substring (toLowerCase term) (toLowerCase text)) \/
  (exists ts tag, tags product = Some ts /\ In tag ts /\
     substring (toLowerCase term) (toLowerCase tag)).

(** The same rule as a test. *)
Definition search_matchesb {R : Runtime} (term : string)
    (product : Product) : bool :=
  includes (toLowerCase (name product)) (toLowerCase term)
  || match description product with
     | Some text => includes (toLowerCase text) (toLowerCase term)
     | None => false
     end
  || match tags product with
     | Some ts =>
         existsb (fun tag => includes (toLowerCase tag) (toLowerCase term)) ts
     | None => false
     end.

(** [a] stands before [b] in [l]. *)
Definition precedes (a b : Product) (l : list Product) : Prop :=
  exists l1 l2 l3, l = l1 ++ a :: l2 ++ b :: l3.

(** The record has the field. *)
Definition has_description (product : Product) : Prop :=
  description product <> None.

Definition has_tags (product : Product) : Prop :=
  tags product <> None.

(** The record with its [tags] set to [ts]. *)
Definition with_tags (product : Product) (ts : list string) : Product :=
  mkProduct (id product) (categoryId product) (name product)
    (description product) (Some ts) (price product) (originalPrice product)
    (inStock product) (rating product) (createdAt product).

(** The [createdAt] of the record is a date. *)
Definition has_date {R : Runtime} (product : Product) : Prop :=
  Date_parse (createdAt product) <> None.

(** The orders of the sort keys. *)
Definition price_ascending (a b : Product) : Prop := (price a <= price b)%Q.

Definition price_descending (a b : Product) : Prop := (price b <= price a)%Q.

Definition rating_descending (a b : Product) : Prop :=
  (rating b <= rating a)%Q.

Definition newest_first {R : Runtime} (a b : Product) : Prop :=
  exists ta tb, Date_parse (createdAt a) = Some ta /\
    Date_parse (createdAt b) = Some tb /\ (tb <= ta)%Z.

Definition name_ascending {R : Runtime} (a b : Product) : Prop :=
  (localeCompare (name a) (name b) <= 0)%Z.

(** [a] is not to stand after [b] under the comparator. *)
Definition not_after (comparator : Product -> Product -> number)
    (a b : Product) : Prop :=
  sign (comparator a b) <> Gt.

(** ** Words for the runs on the heap *)

(** How a stage that starts from the array [p] ends: with an array that is
    [p] itself or a new one and every other array as it was, or with the
    error and the heap as it was. *)
Definition ends_with (m : M loc) (h : heap) (p : loc)
    (result : outcome (list Product)) : Prop :=
  match result with
  | Return l' =>
      exists p' h', m h = (Return p', h') /\ h' !! p' = Some l' /\
        ((p' = p /\ h' = h) \/ (h !! p' = None /\ h' = <[p' := l']> h))
  | Throw e => m h = (Throw e, h)
  end.

(** The array a stage of [server.js] works on is not one of the arrays of
    the heap [h0] the request started from. *)
Definition private (h0 : heap) (p : loc) (l : list Product) (h : heap)
    : Prop :=
  h !! p = Some l /\ h0 ⊆ h /\ h0 !! p = None.

(** The response of [server.js] to a query result. *)
Definition respond (result : outcome (list Product)) : Response :=
  match result with
  | Return l => res_json l
  | Throw e => res_error 500 "Internal server error" (Some e)
  end.

(** ** The guards of the stages, as conditions on a product *)

(** The category stage keeps the product: the parameter is absent, empty or
    "all", or the [categoryId] is the parameter, a string. *)
Definition passes_category (category : option string) (product : Product)
    : Prop :=
  match category with
  | Some value =>
      value = "" \/ value = "all" \/ categoryId product = IdStr value
  | None => True
  end.

(** The availability stage keeps the product. *)
Definition passes_availability (filter : option string) (product : Product)
    : Prop :=
  (or_default filter "all" = "in-stock" -> inStock product = true) /\
  (or_default filter "all" = "on-sale" ->
   (price product < originalPrice product)%Q).

(** The search stage keeps the product. *)
Definition passes_search {R : Runtime} (search : option string)
    (product : Product) : Prop :=
  match search with
  | Some term => term = "" \/ search_matches term product
  | None => True
  end.

(** The category stage on [req.query.category] keeps the product: an
    array or object keeps none. *)
Definition passes_category_param (category : option param)
    (product : Product) : Prop :=
  match category with
  | Some Structured => False
  | _ => passes_category (text_of category) product
  end.

(** The search would read the [description] the product does not have:
    its name does not hold the term. *)
Definition search_reads_missing_description {R : Runtime} (term : string)
    (product : Product) : Prop :=
  description product = None /\
  includes (toLowerCase (name product)) (toLowerCase term) = false.

(** ** [server.js]: the posts of a user *)

Module UserPosts.

(** A post; [userId] may be missing, and may be a string or a number. *)
Record Post : Type := mkPost {
  post_id : ident;
  userId : option ident;
  title : string
}.

(** The database object as the route reads it. *)
Record Database : Type := mkDatabase {
  posts : option (list Post)
}.

Inductive Body : Type :=
| PostList (l : list Post)
| ErrorObject (error : string) (message : option string).

Record Response : Type := mkResponse {
  status : nat;
  body : Body
}.

(** [post.userId === userId] for the route parameter, a string. *)
Definition owned_by (userId : string) (post : Post) : bool :=
  match UserPosts.userId post with
  | Some v => strict_eq_string v userId
  | None => false
  end.

(** The handler of [GET /api/users/:id/posts]: the callback of the filter
    reads one field of an object and cannot throw. *)
Definition posts_handler (db : option Database) (userId : string)
    : Response :=
  match db with
  | None => mkResponse 500 (ErrorObject "Database not loaded" None)
  | Some d =>
      match posts d with
      | None => mkResponse 500 (ErrorObject "Database not loaded" None)
      | Some l => mkResponse 200 (PostList (List.filter (owned_by userId) l))
      end
  end.

End UserPosts.

(** ** The middlewares *)

Module Middleware.

(** [process.env]: a variable is a string or is not set. *)
Record Env : Type := mkEnv {
  NODE_ENV : option string;
  VERCEL : option string
}.

Record Request : Type := mkRequest {
  method : string;
  url : string;
  originalUrl : option string
}.

(** What a middleware does, in the order of the program. *)
Inductive Effect : Type :=
| Cors                                  (* the [cors] middleware is run *)
| SetHeader (name value : string)
| ConsoleLog (line : string)
| Next                                  (* [next()] *)
| SetTimeoutNext (delay : Q)            (* [setTimeout(() => next(), delay)] *)
| SendStatus (code : nat)
| EndResponse (code : nat).             (* the response is ended by [cors] *)

(** The clock and the random source of one run: [Date.now()], the text of
    [new Date().toISOString()] and [Math.random()]. *)
Record Clock : Type := mkClock {
  now : Z;
  isoString : string;
  random : Q
}.

(** [Math.random() * 500 + 200], in exact arithmetic. *)
Definition delay (c : Clock) : Q := (random c * 500 + 200)%Q.

(** [Date.now().toString()] *)
Definition now_string (c : Clock) : string :=
  DecimalString.NilZero.string_of_int (Z.to_int (now c)).

(** [`${req.method} ${req.originalUrl || req.url} - ${iso}`] *)
Definition log_line (req : Request) (c : Clock) : string :=
  (method req ++ " " ++ or_default (originalUrl req) (url req) ++ " - "
   ++ isoString c)%string.

(** [process.env.NODE_ENV === 'production'] *)
Definition node_env_production (env : Env) : bool :=
  match NODE_ENV env with
  | Some v => v =? "production"
  | None => false
  end.

(** [process.env.NODE_ENV === 'production' || process.env.VERCEL], as a
    condition *)
Definition isProduction (env : Env) : bool :=
  node_env_production env || truthy (VERCEL env).

(** The inline middleware of [server.js]. *)
Definition inline (env : Env) (req : Request) (c : Clock) : list Effect :=
  [SetHeader "X-API-Version" "1.0";
   SetHeader "X-Response-Time" (now_string c)]
  ++ (if negb (isProduction env) then
        [ConsoleLog (log_line req c); SetTimeoutNext (delay c)]
      else [Next]).


(** The effect hands the request on, at once or from a timer. *)
Definition passes_on (e : Effect) : bool :=
  match e with
  | Next | SetTimeoutNext _ => true
  | _ => false
  end.

Definition is_header (e : Effect) : bool :=
  match e with
  | SetHeader _ _ => true
  | _ => false
  end.

Definition responds (e : Effect) : bool :=
  match e with
  | SendStatus _ | EndResponse _ => true
  | _ => false
  end.

End Middleware.

(** * Properties *)

(** ** Examples *)

Example lower_ascii_widget : lower_ascii "WIDGET" = "widget".
Proof. reflexivity. Qed.

Example includes_zet : includes (lower_ascii "Zeta") "zet" = true.
Proof. reflexivity. Qed.

Example parse_epoch : SampleRuntime.parse_date "1970-01-01" = Some 0%Z.
Proof. reflexivity. Qed.

Example parse_2023 :
  SampleRuntime.parse_date "2023-06-01" = Some 1685577600000%Z.
Proof. reflexivity. Qed.

(** The examples of the specification on its two records. *)
Example on_sale_keeps_alpha :
  fst (ServerJs.serve (R := SampleRuntime.runtime)
         (ServerJs.ParsedObject
            (Some [SampleRuntime.zeta; SampleRuntime.alpha]))
         (mkQuery None None (Some "on-sale") None) ∅) =
  Return (res_json [SampleRuntime.alpha]).
Proof. vm_compute. reflexivity. Qed.

Example empty_query_sorts_by_name :
  fst (ServerJs.serve (R := SampleRuntime.runtime)
         (ServerJs.ParsedObject
            (Some [SampleRuntime.zeta; SampleRuntime.alpha]))
         SampleRuntime.no_query ∅) =
  Return (res_json [SampleRuntime.alpha; SampleRuntime.zeta]).
Proof. vm_compute. reflexivity. Qed.

Example newest_puts_alpha_first :
  fst (ServerJs.serve (R := SampleRuntime.runtime)
         (ServerJs.ParsedObject
            (Some [SampleRuntime.zeta; SampleRuntime.alpha]))
         (mkQuery None (Some "newest") None None) ∅) =
  Return (res_json [SampleRuntime.alpha; SampleRuntime.zeta]).
Proof. vm_compute. reflexivity. Qed.

Example price_high_puts_gadget_first :
  fst (ServerJs.serve (R := SampleRuntime.runtime)
         (ServerJs.ParsedObject
            (Some [SampleRuntime.gadget; SampleRuntime.widget]))
         (mkQuery None (Some "price-high") None None) ∅) =
  Return (res_json [SampleRuntime.gadget; SampleRuntime.widget]).
Proof. vm_compute. reflexivity. Qed.

(** ** Strings *)

Lemma startsWith_prefix (s needle : string) :
  startsWith s needle = true <-> exists after, s = (needle ++ after)%string.
Proof.
  revert s; induction needle as [|a needle IH]; intros s; simpl.
  - split; [intros _; exists s; reflexivity | destruct s; reflexivity].
  - destruct s as [|b s].
    + split; [discriminate | intros [after H]; discriminate].
    + simpl. rewrite andb_true_iff, Ascii.eqb_eq, IH. split.
      * intros [-> [after ->]]. exists after. reflexivity.
      * intros [after H]. injection H as -> ->. split; [reflexivity|].
        exists after. reflexivity.
Qed.

Lemma includes_unfold (s needle : string) :
  includes s needle =
  startsWith s needle ||
  match s with
  | EmptyString => false
  | String _ s' => includes s' needle
  end.
Proof. destruct s; reflexivity. Qed.

(** [includes] decides [substring]. *)
Lemma includes_substring (s needle : string) :
  includes s needle = true <-> substring needle s.
Proof.
  unfold substring. induction s as [|c s IH]; rewrite includes_unfold.
  - rewrite orb_false_r, startsWith_prefix. split.
    + intros [after H]. exists EmptyString, after. exact H.
    + intros [[|c before] [after H]]; [exists after; exact H | discriminate].
  - rewrite orb_true_iff, startsWith_prefix, IH. split.
    + intros [[after H] | [before [after H]]].
      * exists EmptyString, after. exact H.
      * exists (String c before), after. simpl. rewrite H. reflexivity.
    + intros [[|b before] [after H]].
      * left. exists after. exact H.
      * right. simpl in H. injection H as -> H. exists before, after. exact H.
Qed.

Lemma includes_empty_needle (s : string) : includes s "" = true.
Proof. rewrite includes_unfold. destruct s; reflexivity. Qed.

Lemma existsb_includes {R : Runtime} (needle : string) (ts : list string) :
  existsb (fun tag => includes (toLowerCase tag) needle) ts = true <->
  exists tag, In tag ts /\ substring needle (toLowerCase tag).
Proof.
  rewrite existsb_exists. split; intros [tag [Hin H]]; exists tag;
    (split; [exact Hin | apply includes_substring; exact H]).
Qed.

(** The test of the search rule decides it. *)
Lemma search_matchesb_spec {R : Runtime} (term : string) (product : Product) :
  search_matchesb term product = true <-> search_matches term product.
Proof.
  unfold search_matchesb, search_matches.
  rewrite !orb_true_iff, includes_substring.
  assert (Hd : match description product with
               | Some text => includes (toLowerCase text) (toLowerCase term)
               | None => false
               end = true <->
               exists text, description product = Some text /\
                 substring (toLowerCase term) (toLowerCase text));
    [| assert (Ht : match tags product with
                    | Some ts =>
                        existsb
                          (fun tag =>
                             includes (toLowerCase tag) (toLowerCase term)) ts
                    | None => false
                    end = true <->
                    exists ts tag, tags product = Some ts /\ In tag ts /\
                      substring (toLowerCase term) (toLowerCase tag));
       [| rewrite Hd, Ht; tauto]].
  - destruct (description product) as [text|].
    + rewrite includes_substring. split.
      * intros H. exists text. split; [reflexivity | exact H].
      * intros [text' [E H]]. injection E as <-. exact H.
    + split; [discriminate | intros [text [E _]]; discriminate].
  - destruct (tags product) as [ts|].
    + rewrite existsb_includes. split.
      * intros [tag [Hin H]]. exists ts, tag. auto.
      * intros [ts' [tag [E [Hin H]]]]. injection E as <-. exists tag. auto.
    + split; [discriminate | intros [ts [tag [E _]]]; discriminate].
Qed.

(** ** [Array.prototype.filter] *)

Lemma filter_elements_on (callback : Product -> outcome bool)
    (f : Product -> bool) (l : list Product) :
  Forall (fun p => callback p = Return (f p)) l ->
  filter_elements callback l = Return (List.filter f l).
Proof.
  induction 1 as [|p l Hp _ IH]; simpl; [reflexivity|].
  rewrite Hp, IH. destruct (f p); reflexivity.
Qed.

Lemma filter_elements_total (f : Product -> bool) (l : list Product) :
  filter_elements (fun p => Return (f p)) l = Return (List.filter f l).
Proof. apply filter_elements_on, List.Forall_forall. reflexivity. Qed.

(** What is kept comes from the array, in no greater number. *)
Lemma filter_elements_kept (callback : Product -> outcome bool)
    (l kept : list Product) :
  filter_elements callback l = Return kept ->
  (length kept <= length l)%nat /\ forall p, In p kept -> In p l.
Proof.
  revert kept; induction l as [|x l IH]; simpl; intros kept H.
  - injection H as <-. split; [simpl; lia | tauto].
  - destruct (callback x) as [keep|]; [|discriminate].
    destruct (filter_elements callback l) as [kept'|]; [|discriminate].
    destruct (IH kept' eq_refl) as [Hlen Hin].
    injection H as <-. destruct keep; simpl.
    + split; [lia | intros p [E | Hp]; auto].
    + split; [lia | auto].
Qed.

(** An error of the call is an error of the callback on an element. *)
Lemma filter_elements_throw (callback : Product -> outcome bool)
    (l : list Product) (e : string) :
  filter_elements callback l = Throw e ->
  exists p, In p l /\ callback p = Throw e.
Proof.
  induction l as [|x l IH]; simpl; [discriminate|].
  destruct (callback x) as [keep|e'] eqn:Hx.
  - destruct (filter_elements callback l) as [kept'|e']; [discriminate|].
    intros H. injection H as ->. destruct (IH eq_refl) as [p [Hin Hp]].
    exists p. auto.
  - intros H. injection H as ->. exists x. auto.
Qed.

Lemma filter_length_le (f : Product -> bool) (l : list Product) :
  (length (List.filter f l) <= length l)%nat.
Proof. induction l as [|x l IH]; simpl; [|destruct (f x); simpl]; lia. Qed.

(** ** [Array.prototype.sort] *)

Section Sorting.

Variable comparator : Product -> Product -> number.

Lemma sort_insert_perm (x : Product) (l : list Product) :
  Permutation (sort_insert comparator x l) (x :: l).
Proof.
  induction l as [|y l IH]; simpl; [reflexivity|].
  destruct (sign (comparator x y)); try reflexivity.
  rewrite IH. apply perm_swap.
Qed.

Lemma sort_elements_perm (l : list Product) :
  Permutation (sort_elements comparator l) l.
Proof.
  induction l as [|x l IH]; simpl; [reflexivity|].
  rewrite sort_insert_perm, IH. reflexivity.
Qed.

Lemma sort_elements_length (l : list Product) :
  length (sort_elements comparator l) = length l.
Proof. apply Permutation_length, sort_elements_perm. Qed.

Lemma sort_elements_In (l : list Product) (p : Product) :
  In p (sort_elements comparator l) <-> In p l.
Proof.
  split; apply Permutation_in;
    [| symmetry]; apply sort_elements_perm.
Qed.

(** *** The result is in order, for a comparator that is consistent on the
    elements *)

Variable valid : Product -> Prop.

Hypothesis comparator_total : forall a b,
  valid a -> valid b -> sign (comparator a b) = Gt -> not_after comparator b a.

Hypothesis comparator_trans : forall a b c,
  valid a -> valid b -> valid c ->
  not_after comparator a b -> not_after comparator b c ->
  not_after comparator a c.

Lemma sort_insert_sorted (x : Product) (l : list Product) :
  valid x -> Forall valid l ->
  StronglySorted (not_after comparator) l ->
  StronglySorted (not_after comparator) (sort_insert comparator x l).
Proof.
  intros Hx Hl Hs. induction l as [|y l IH]; simpl.
  - constructor; constructor.
  - apply Forall_cons_iff in Hl as [Hy Hl].
    apply StronglySorted_inv in Hs as [Hs Hall].
    destruct (sign (comparator x y)) eqn:E.
    + constructor; [constructor; assumption|].
      constructor; [unfold not_after; congruence|].
      rewrite List.Forall_forall in *. intros z Hz.
      apply comparator_trans with y; auto.
      unfold not_after; congruence.
    + constructor; [constructor; assumption|].
      constructor; [unfold not_after; congruence|].
      rewrite List.Forall_forall in *. intros z Hz.
      apply comparator_trans with y; auto.
      unfold not_after; congruence.
    + constructor; [apply IH; assumption|].
      apply Permutation_Forall with (x :: l);
        [symmetry; apply sort_insert_perm|].
      constructor; [apply comparator_total; assumption | assumption].
Qed.

Lemma sort_elements_sorted (l : list Product) :
  Forall valid l ->
  StronglySorted (not_after comparator) (sort_elements comparator l).
Proof.
  induction 1 as [|x l Hx Hl IH]; simpl; [constructor|].
  apply sort_insert_sorted; [assumption | | assumption].
  apply Permutation_Forall with l;
    [symmetry; apply sort_elements_perm | assumption].
Qed.

End Sorting.


(** *** Stability *)

Lemma precedes_nil (a b : Product) : ~ precedes a b [].
Proof. intros [[|x l1] [l2 [l3 H]]]; discriminate. Qed.

Lemma precedes_cons (a b y : Product) (l : list Product) :
  precedes a b (y :: l) <-> (y = a /\ In b l) \/ precedes a b l.
Proof.
  split.
  - intros [[|x l1] [l2 [l3 H]]]; simpl in H; injection H as -> ->.
    + left. split; [reflexivity|]. apply in_or_app. right. left. reflexivity.
    + right. exists l1, l2, l3. reflexivity.
  - intros [[-> Hb] | [l1 [l2 [l3 ->]]]].
    + apply in_split in Hb as [l2 [l3 ->]]. exists [], l2, l3. reflexivity.
    + exists (y :: l1), l2, l3. reflexivity.
Qed.

Section Stability.

Variable comparator : Product -> Product -> number.

(** An insertion keeps the order of the elements that were there. *)
Lemma sort_insert_keeps (x a b : Product) (l : list Product) :
  precedes a b l -> precedes a b (sort_insert comparator x l).
Proof.
  induction l as [|y l IH]; simpl; intros H.
  - destruct (precedes_nil _ _ H).
  - destruct (sign (comparator x y));
      try (apply precedes_cons; right; exact H).
    apply precedes_cons in H. apply precedes_cons.
    destruct H as [[-> Hb] | H].
    + left. split; [reflexivity|].
      apply Permutation_in with (x :: l);
        [symmetry; apply sort_insert_perm | right; exact Hb].
    + right. apply IH, H.
Qed.

(** The inserted element goes before every element it is not to stand
    after. *)
Lemma sort_insert_before (x b : Product) (l : list Product) :
  In b l -> not_after comparator x b ->
  precedes x b (sort_insert comparator x l).
Proof.
  unfold not_after. induction l as [|y l IH]; simpl; intros Hb Hxb.
  - destruct Hb.
  - destruct (sign (comparator x y)) eqn:E;
      try (apply precedes_cons; left; split; [reflexivity | exact Hb]).
    apply precedes_cons. right. destruct Hb as [-> | Hb].
    + congruence.
    + apply IH; assumption.
Qed.

Lemma sort_elements_stable (a b : Product) (l : list Product) :
  precedes a b l -> not_after comparator a b ->
  precedes a b (sort_elements comparator l).
Proof.
  intros H Hab. induction l as [|y l IH]; simpl.
  - destruct (precedes_nil _ _ H).
  - apply precedes_cons in H as [[-> Hb] | H].
    + apply sort_insert_before; [|exact Hab].
      apply sort_elements_In, Hb.
    + apply sort_insert_keeps, IH, H.
Qed.

End Stability.

(** ** The comparators *)

Lemma sign_difference_Gt (a b : Q) :
  sign (Finite (a - b)) = Gt <-> (b < a)%Q.
Proof.
  simpl. rewrite <- Qgt_alt, (Qlt_minus_iff b a). reflexivity.
Qed.

Lemma sign_difference_not_Gt (a b : Q) :
  sign (Finite (a - b)) <> Gt <-> (a <= b)%Q.
Proof.
  rewrite sign_difference_Gt. split.
  - apply Qnot_lt_le.
  - intros H H'. exact (Qle_not_lt _ _ H H').
Qed.

Lemma sign_integer (z : Z) :
  sign (Finite (inject_Z z)) = (z ?= 0)%Z.
Proof. simpl. unfold Qcompare. simpl. rewrite Z.mul_1_r. reflexivity. Qed.

Lemma sign_integer_not_Gt (z : Z) :
  sign (Finite (inject_Z z)) <> Gt <-> (z <= 0)%Z.
Proof. rewrite sign_integer. unfold Z.le. reflexivity. Qed.

Section Comparators.

Context {R : Runtime}.

Lemma compareFn_price_low (a b : Product) :
  not_after (compareFn "price-low") a b <-> price_ascending a b.
Proof. apply sign_difference_not_Gt. Qed.

Lemma compareFn_price_high (a b : Product) :
  not_after (compareFn "price-high") a b <-> price_descending a b.
Proof. apply sign_difference_not_Gt. Qed.

Lemma compareFn_rating (a b : Product) :
  not_after (compareFn "rating") a b <-> rating_descending a b.
Proof. apply sign_difference_not_Gt. Qed.

Lemma compareFn_newest (a b : Product) :
  has_date a -> has_date b ->
  (not_after (compareFn "newest") a b <-> newest_first a b).
Proof.
  unfold has_date, not_after, newest_first, compareFn. simpl.
  destruct (Date_parse (createdAt a)) as [ta|]; [|congruence].
  destruct (Date_parse (createdAt b)) as [tb|]; [|congruence].
  intros _ _. rewrite sign_integer_not_Gt. split.
  - intros H. exists ta, tb. repeat split; lia.
  - intros [ta' [tb' [Ea [Eb H]]]]. injection Ea as <-. injection Eb as <-.
    lia.
Qed.

(** Every key but the four named ones selects the name comparator. *)
Lemma compareFn_default (sortBy : string) (a b : Product) :
  sortBy <> "price-low" -> sortBy <> "price-high" -> sortBy <> "rating" ->
  sortBy <> "newest" ->
  compareFn sortBy a b = Finite (inject_Z (localeCompare (name a) (name b))).
Proof.
  intros H1 H2 H3 H4. unfold compareFn.
  apply String.eqb_neq in H1, H2, H3, H4. rewrite H1, H2, H3, H4.
  reflexivity.
Qed.

Lemma compareFn_name (sortBy : string) (a b : Product) :
  sortBy <> "price-low" -> sortBy <> "price-high" -> sortBy <> "rating" ->
  sortBy <> "newest" ->
  (not_after (compareFn sortBy) a b <-> name_ascending a b).
Proof.
  intros H1 H2 H3 H4. unfold not_after.
  rewrite compareFn_default by assumption. apply sign_integer_not_Gt.
Qed.

End Comparators.

(** *** The sorted array is in the order of the key *)


Lemma Qle_cases (x y : Q) : (x <= y)%Q \/ (y <= x)%Q.
Proof.
  destruct (Qlt_le_dec x y) as [H | H]; [left; apply Qlt_le_weak, H | right; exact H].
Qed.

Lemma Forall_True (l : list Product) : Forall (fun _ => True) l.
Proof. apply List.Forall_forall. intros; exact I. Qed.

Section KeyOrders.

Context {R : Runtime}.






End KeyOrders.

(** ** The heap *)

Lemma fresh_unused (h : heap) : h !! fresh (dom h) = None.
Proof. apply not_elem_of_dom, is_fresh. Qed.

Lemma alloc_run (l : list Product) (h : heap) :
  exists r, alloc l h = (Return r, <[r := l]> h) /\ h !! r = None.
Proof. exists (fresh (dom h)). split; [reflexivity | apply fresh_unused]. Qed.

Lemma spread_run (p : loc) (l : list Product) (h : heap) :
  h !! p = Some l ->
  exists p', spread p h = (Return p', <[p' := l]> h) /\ h !! p' = None.
Proof.
  intros H. unfold spread, bind, contents. rewrite H. apply alloc_run.
Qed.

Lemma Array_filter_run (callback : Product -> outcome bool) (p : loc)
    (l : list Product) (h : heap) :
  h !! p = Some l ->
  ends_with (Array_filter callback p) h p (filter_elements callback l).
Proof.
  intros H. unfold ends_with, Array_filter, bind, contents. rewrite H.
  destruct (filter_elements callback l) as [kept|e]; [|reflexivity].
  destruct (alloc_run kept h) as [p' [E Hp']].
  exists p', (<[p' := kept]> h). split; [exact E|].
  split; [apply lookup_insert_eq | right; split; [exact Hp' | reflexivity]].
Qed.

Lemma ret_run (p : loc) (l : list Product) (h : heap) :
  h !! p = Some l -> ends_with (ret p) h p (Return l).
Proof.
  intros H. exists p, h. split; [reflexivity|]. split; [exact H|].
  left. split; reflexivity.
Qed.

Lemma Array_sort_run (comparator : Product -> Product -> number) (p : loc)
    (l : list Product) (h : heap) :
  h !! p = Some l ->
  Array_sort comparator p h =
  (Return p, <[p := sort_elements comparator l]> h).
Proof. intros H. unfold Array_sort. rewrite H. reflexivity. Qed.

Lemma bind_Return {A B} (m : M A) (k : A -> M B) (h h' : heap) (a : A) :
  m h = (Return a, h') -> bind m k h = k a h'.
Proof. intros E. unfold bind. rewrite E. reflexivity. Qed.

Lemma bind_Throw {A B} (m : M A) (k : A -> M B) (h h' : heap) (e : string) :
  m h = (Throw e, h') -> bind m k h = (Throw e, h').
Proof. intros E. unfold bind. rewrite E. reflexivity. Qed.

(** ** The stages on the heap *)

Section StageRuns.

Context {R : Runtime}.

Lemma filterByCategory_run (category : option string) (p : loc)
    (l : list Product) (h : heap) :
  h !! p = Some l ->
  ends_with (filterByCategory category p) h p
    (Return (kept_by_category category l)).
Proof.
  intros H. unfold filterByCategory, kept_by_category.
  destruct (truthy category && strict_neq category "all").
  - rewrite <- filter_elements_total. apply Array_filter_run, H.
  - apply ret_run, H.
Qed.

Lemma filterByAvailability_run (filterBy : string) (p : loc)
    (l : list Product) (h : heap) :
  h !! p = Some l ->
  ends_with (filterByAvailability filterBy p) h p
    (Return (kept_by_availability filterBy l)).
Proof.
  intros H. unfold filterByAvailability, kept_by_availability.
  destruct (filterBy =? "in-stock");
    [| destruct (filterBy =? "on-sale")].
  - rewrite <- filter_elements_total. apply Array_filter_run, H.
  - rewrite <- filter_elements_total. apply Array_filter_run, H.
  - apply ret_run, H.
Qed.

Lemma ServerJs_filterBySearch_run (search : option string) (p : loc)
    (l : list Product) (h : heap) :
  h !! p = Some l ->
  ends_with (ServerJs.filterBySearch search p) h p
    (kept_by_search ServerJs.searchCallback search l).
Proof.
  intros H. unfold ServerJs.filterBySearch, kept_by_search.
  destruct search as [term|]; [destruct (term =? "")|].
  - apply ret_run, H.
  - apply Array_filter_run, H.
  - apply ret_run, H.
Qed.

Lemma CustomServer_filterBySearch_run (search : option string) (p : loc)
    (l : list Product) (h : heap) :
  h !! p = Some l ->
  ends_with (CustomServer.filterBySearch search p) h p
    (kept_by_search CustomServer.searchCallback search l).
Proof.
  intros H. unfold CustomServer.filterBySearch, kept_by_search.
  destruct search as [term|]; [destruct (term =? "")|].
  - apply ret_run, H.
  - apply Array_filter_run, H.
  - apply ret_run, H.
Qed.

Lemma private_step (h0 : heap) (m : M loc) (p : loc) (l l' : list Product)
    (h : heap) :
  private h0 p l h ->
  ends_with m h p (Return l') ->
  exists p' h', m h = (Return p', h') /\ private h0 p' l' h'.
Proof.
  intros [Hp [Hsub Hnew]] [p' [h' [E [Hl' Hcase]]]].
  exists p', h'. split; [exact E|]. split; [exact Hl'|].
  destruct Hcase as [[-> ->] | [Hfree ->]].
  - split; assumption.
  - split.
    + transitivity h; [exact Hsub | apply insert_subseteq, Hfree].
    + eapply lookup_weaken_None; eassumption.
Qed.

(** The handler of [server.js] answers with the result of the Query
    Engine on the elements of the store, and leaves every array of the heap
    as it was. *)
Lemma ServerJs_products_handler_run (store : loc) (ps : list Product)
    (query : Query) (h : heap) :
  h !! store = Some ps ->
  exists h',
    ServerJs.products_handler (Some (mkDatabase (Some store))) query h =
    (Return (respond (query_result ServerJs.searchCallback query ps)), h') /\
    h ⊆ h'.
Proof.
  intros Hstore. unfold query_result.
  cbv beta iota zeta delta [ServerJs.products_handler try_catch products].
  destruct (spread_run store ps h Hstore) as [p0 [E0 Hfree0]].
  rewrite (bind_Return _ _ _ _ _ E0).
  assert (I0 : private h p0 ps (<[p0 := ps]> h)).
  { split; [apply lookup_insert_eq|].
    split; [apply insert_subseteq, Hfree0 | exact Hfree0]. }
  destruct (private_step h _ _ _ _ _ I0
              (filterByCategory_run (query_category query) p0 ps _
                 (proj1 I0))) as [p1 [h1 [E1 I1]]].
  rewrite (bind_Return _ _ _ _ _ E1).
  destruct (private_step h _ _ _ _ _ I1
              (filterByAvailability_run
                 (or_default (query_filter query) "all") p1 _ _ (proj1 I1)))
    as [p2 [h2 [E2 I2]]].
  rewrite (bind_Return _ _ _ _ _ E2).
  pose proof (ServerJs_filterBySearch_run (query_search query) p2 _ _
                (proj1 I2)) as Hsearch.
  destruct (kept_by_search ServerJs.searchCallback (query_search query) _)
    as [kept|e].
  - destruct (private_step h _ _ _ _ _ I2 Hsearch) as [p3 [h3 [E3 I3]]].
    rewrite (bind_Return _ _ _ _ _ E3).
    destruct I3 as [Hp3 [Hsub3 Hnew3]].
    unfold sortProducts.
    rewrite (bind_Return _ _ _ _ _ (Array_sort_run _ p3 kept h3 Hp3)).
    unfold bind, contents. rewrite lookup_insert_eq.
    eexists. split; [reflexivity|].
    apply insert_subseteq_r; assumption.
  - simpl in Hsearch. rewrite (bind_Throw _ _ _ _ _ Hsearch).
    exists h2. split; [reflexivity | apply I2].
Qed.

(** The handler of the custom server computes the same result, on the
    store's own array when no filter is active, and lets an error out. *)
Lemma CustomServer_products_handler_run (store : loc) (ps : list Product)
    (query : Query) (h : heap) :
  h !! store = Some ps ->
  exists h',
    CustomServer.products_handler (Some (mkDatabase (Some store))) query h =
    (match query_result CustomServer.searchCallback query ps with
     | Return l => Return (res_json l)
     | Throw e => Throw e
     end, h').
Proof.
  intros Hstore. unfold query_result.
  cbv beta iota zeta delta [CustomServer.products_handler products].
  destruct (filterByCategory_run (query_category query) store ps h Hstore)
    as [p1 [h1 [E1 [H1 _]]]].
  rewrite (bind_Return _ _ _ _ _ E1).
  destruct (filterByAvailability_run
              (or_default (query_filter query) "all") p1 _ h1 H1)
    as [p2 [h2 [E2 [H2 _]]]].
  rewrite (bind_Return _ _ _ _ _ E2).
  pose proof (CustomServer_filterBySearch_run (query_search query) p2 _ _
                H2) as Hsearch.
  destruct (kept_by_search CustomServer.searchCallback (query_search query) _)
    as [kept|e].
  - destruct Hsearch as [p3 [h3 [E3 [H3 _]]]].
    rewrite (bind_Return _ _ _ _ _ E3).
    unfold sortProducts.
    rewrite (bind_Return _ _ _ _ _ (Array_sort_run _ p3 kept h3 H3)).
    unfold bind, contents. rewrite lookup_insert_eq.
    eexists. reflexivity.
  - simpl in Hsearch. rewrite (bind_Throw _ _ _ _ _ Hsearch).
    exists h2. reflexivity.
Qed.

End StageRuns.

(** ** The sample runtime is a collation *)

Lemma compare_strings_le (s t : string) :
  (SampleRuntime.compare_strings s t <= 0)%Z <->
  s = t \/ OrdersEx.String_as_OT.lt s t.
Proof.
  unfold SampleRuntime.compare_strings.
  destruct (OrdersEx.String_as_OT.compare_spec s t) as [E | L | G].
  - split; [left; exact E | lia].
  - split; [right; exact L | lia].
  - split; [lia|]. intros [E | L]; exfalso.
    + subst t. exact (irreflexivity OrdersEx.String_as_OT.lt s G).
    + apply (irreflexivity OrdersEx.String_as_OT.lt s).
      transitivity t; assumption.
Qed.

Lemma sample_collation : Collation SampleRuntime.runtime.
Proof.
  split; simpl.
  - intros s t H. apply compare_strings_le.
    destruct (OrdersEx.String_as_OT.compare_spec t s) as [E | L | G];
      [left; exact E | right; exact L |].
    assert (H' : (SampleRuntime.compare_strings s t <= 0)%Z)
      by (apply compare_strings_le; right; exact G).
    lia.
  - intros s t u Hst Htu. apply compare_strings_le.
    apply compare_strings_le in Hst, Htu.
    destruct Hst as [-> | Hst]; [exact Htu|].
    destruct Htu as [<- | Htu]; [right; exact Hst|].
    right. transitivity t; assumption.
Qed.

Lemma sample_lowercasing : Lowercasing SampleRuntime.runtime.
Proof. split. reflexivity. Qed.

(** ** The store under a request *)

Lemma query_result_nil {R : Runtime}
    (callback : string -> Product -> outcome bool) (query : Query) :
  query_result callback query [] = Return [].
Proof.
  unfold query_result, kept_by_category, kept_by_availability, kept_by_search.
  destruct (truthy (query_category query) &&
            strict_neq (query_category query) "all"); simpl;
    destruct (or_default (query_filter query) "all" =? "in-stock"); simpl;
    destruct (or_default (query_filter query) "all" =? "on-sale"); simpl;
    destruct (query_search query) as [term|]; try reflexivity;
    destruct (term =? ""); reflexivity.
Qed.

(** The handler of [server.js] leaves every array of the heap as it was:
    it works on a copy of the store. *)
Lemma ServerJs_products_handler_frame {R : Runtime} (db : option Database)
    (query : Query) (h : heap) :
  h ⊆ snd (ServerJs.products_handler db query h).
Proof.
  destruct db as [[[store|]]|]; [| reflexivity | reflexivity].
  destruct (h !! store) as [ps|] eqn:Hstore.
  - destruct (ServerJs_products_handler_run store ps query h Hstore)
      as [h' [E Hsub]].
    rewrite E. exact Hsub.
  - cbv beta iota zeta delta
      [ServerJs.products_handler try_catch products spread bind contents].
    rewrite Hstore. reflexivity.
Qed.

Lemma singleton_store (store : loc) (l : list Product) :
  ({[store := l]} : heap) !! store = Some l.
Proof. apply lookup_singleton_eq. Qed.

(** ** Further facts about the stages *)

Lemma Array_filter_total_run (f : Product -> bool) (p : loc)
    (l : list Product) (h : heap) :
  h !! p = Some l ->
  exists p',
    Array_filter (fun product => Return (f product)) p h =
    (Return p', <[p' := List.filter f l]> h) /\
    h !! p' = None.
Proof.
  intros H. unfold Array_filter, bind, contents.
  rewrite H, filter_elements_total. apply alloc_run.
Qed.

Lemma less_than_spec (a b : Q) : less_than a b = true <-> (a < b)%Q.
Proof.
  unfold less_than. rewrite Qlt_alt.
  destruct (a ?= b)%Q; split; congruence.
Qed.

Lemma strict_eq_string_spec (v : ident) (s : string) :
  strict_eq_string v s = true <-> v = IdStr s.
Proof.
  destruct v as [t|n]; simpl.
  - rewrite String.eqb_eq. split; congruence.
  - split; discriminate.
Qed.

(** The custom server sorts the store's own array when no filter is
    active. *)
Lemma CustomServer_products_handler_in_place {R : Runtime} (store : loc)
    (ps : list Product) (sort : option string) (h : heap) :
  h !! store = Some ps ->
  let sorted := sort_elements (compareFn (or_default sort "name")) ps in
  CustomServer.products_handler (Some (mkDatabase (Some store)))
    (mkQuery None sort None None) h =
  (Return (res_json sorted), <[store := sorted]> h).
Proof.
  intros Hstore sorted.
  cbv beta iota zeta delta
    [CustomServer.products_handler products query_category query_sort
     query_filter query_search].
  rewrite (bind_Return (filterByCategory None store) _ h h store eq_refl).
  rewrite (bind_Return (filterByAvailability (or_default None "all") store)
             _ h h store eq_refl).
  rewrite (bind_Return (CustomServer.filterBySearch None store)
             _ h h store eq_refl).
  unfold sortProducts.
  rewrite (bind_Return _ _ _ _ _ (Array_sort_run _ store ps h Hstore)).
  unfold bind, contents. rewrite lookup_insert_eq. reflexivity.
Qed.

Lemma ServerJs_searchCallback_described {R : Runtime}
    (term : string) (product : Product) :
  has_description product ->
  ServerJs.searchCallback (toLowerCase term) product =
  Return (search_matchesb term product).
Proof.
  unfold has_description, ServerJs.searchCallback, search_matchesb.
  destruct (description product) as [text|]; [intros _ | congruence].
  destruct (includes (toLowerCase (name product)) (toLowerCase term));
    [reflexivity|].
  destruct (includes (toLowerCase text) (toLowerCase term)); [reflexivity|].
  destruct (tags product); reflexivity.
Qed.

Lemma CustomServer_searchCallback_tagged {R : Runtime} (searchLower : string)
    (product : Product) :
  has_tags product ->
  CustomServer.searchCallback searchLower product =
  ServerJs.searchCallback searchLower product.
Proof.
  unfold has_tags, CustomServer.searchCallback, ServerJs.searchCallback.
  destruct (tags product); [reflexivity | congruence].
Qed.

Lemma filter_elements_ext (f g : Product -> outcome bool)
    (l : list Product) :
  Forall (fun p => f p = g p) l ->
  filter_elements f l = filter_elements g l.
Proof.
  induction 1 as [|p l Hp _ IH]; simpl; [reflexivity|].
  rewrite Hp, IH. reflexivity.
Qed.

Lemma kept_by_category_within (category : option string)
    (l : list Product) :
  (length (kept_by_category category l) <= length l)%nat /\
  forall p, In p (kept_by_category category l) -> In p l.
Proof.
  unfold kept_by_category.
  destruct (truthy category && strict_neq category "all").
  - split; [apply filter_length_le | intros p Hp].
    apply filter_In in Hp. tauto.
  - split; [lia | tauto].
Qed.

Lemma kept_by_availability_within (filterBy : string) (l : list Product) :
  (length (kept_by_availability filterBy l) <= length l)%nat /\
  forall p, In p (kept_by_availability filterBy l) -> In p l.
Proof.
  unfold kept_by_availability.
  destruct (filterBy =? "in-stock"); [| destruct (filterBy =? "on-sale")].
  - split; [apply filter_length_le | intros p Hp].
    apply filter_In in Hp. tauto.
  - split; [apply filter_length_le | intros p Hp].
    apply filter_In in Hp. tauto.
  - split; [lia | tauto].
Qed.

Lemma kept_by_search_within {R : Runtime}
    (callback : string -> Product -> outcome bool)
    (search : option string) (l kept : list Product) :
  kept_by_search callback search l = Return kept ->
  (length kept <= length l)%nat /\ forall p, In p kept -> In p l.
Proof.
  unfold kept_by_search.
  destruct search as [term|]; [destruct (term =? "")|].
  - intros H. injection H as <-. split; [lia | tauto].
  - apply filter_elements_kept.
  - intros H. injection H as <-. split; [lia | tauto].
Qed.

Lemma query_result_within {R : Runtime}
    (callback : string -> Product -> outcome bool) (query : Query)
    (l result : list Product) :
  query_result callback query l = Return result ->
  (length result <= length l)%nat /\ forall p, In p result -> In p l.
Proof.
  unfold query_result.
  destruct (kept_by_search _ _ _) as [kept|] eqn:E; [|discriminate].
  intros H. injection H as <-.
  apply kept_by_search_within in E as [Hlen3 Hin3].
  destruct (kept_by_availability_within
              (or_default (query_filter query) "all")
              (kept_by_category (query_category query) l)) as [Hlen2 Hin2].
  destruct (kept_by_category_within (query_category query) l)
    as [Hlen1 Hin1].
  split.
  - rewrite sort_elements_length. lia.
  - intros p Hp. apply sort_elements_In in Hp. auto.
Qed.

(** On records that have a description the search does not throw. *)
Lemma query_result_described {R : Runtime} (query : Query)
    (l : list Product) :
  Forall has_description l ->
  exists result, query_result ServerJs.searchCallback query l = Return result.
Proof.
  intros Hl. unfold query_result, kept_by_search.
  destruct (query_search query) as [term|]; [destruct (term =? "")|];
    try (eexists; reflexivity).
  rewrite (filter_elements_on _ (search_matchesb term)).
  - eexists; reflexivity.
  - rewrite List.Forall_forall in *. intros p Hp.
    apply ServerJs_searchCallback_described, Hl.
    apply kept_by_category_within with (category := query_category query).
    apply kept_by_availability_within
      with (filterBy := or_default (query_filter query) "all").
    exact Hp.
Qed.


(** ** What the stages keep, and further facts *)

Lemma kept_by_category_In (category : option string) (l : list Product)
    (p : Product) :
  In p (kept_by_category category l) <-> In p l /\ passes_category category p.
Proof.
  unfold kept_by_category, passes_category.
  destruct category as [value|]; simpl; [|tauto].
  destruct (String.eqb_spec value "") as [-> | Hne]; simpl; [tauto|].
  destruct (String.eqb_spec value "all") as [-> | Hall]; simpl; [tauto|].
  rewrite filter_In, strict_eq_string_spec. tauto.
Qed.

Lemma or_default_eqb (o : option string) (d key : string) :
  (or_default o d =? key) = true <-> or_default o d = key.
Proof. apply String.eqb_eq. Qed.

Lemma kept_by_availability_In (filter : option string) (l : list Product)
    (p : Product) :
  In p (kept_by_availability (or_default filter "all") l) <->
  In p l /\ passes_availability filter p.
Proof.
  unfold kept_by_availability, passes_availability.
  destruct (String.eqb_spec (or_default filter "all") "in-stock") as [E | N].
  - rewrite filter_In, E. split.
    + intros [Hin Hs]. repeat split; [exact Hin | auto | discriminate].
    + intros [Hin [Hs _]]. auto.
  - destruct (String.eqb_spec (or_default filter "all") "on-sale")
      as [E | N'].
    + rewrite filter_In, less_than_spec. split.
      * intros [Hin Hs]. repeat split; [exact Hin | congruence | auto].
      * intros [Hin [_ Hs]]. auto.
    + split; [intros Hin; repeat split; [exact Hin | congruence..] | tauto].
Qed.

(** The search callback of [server.js] throws exactly on a product whose
    missing description it has to read. *)
Lemma ServerJs_searchCallback_cases {R : Runtime}
    (term : string) (product : Product) :
  (search_reads_missing_description term product /\
   ServerJs.searchCallback (toLowerCase term) product =
   Throw "Cannot read properties of undefined (reading 'toLowerCase')") \/
  (~ search_reads_missing_description term product /\
   ServerJs.searchCallback (toLowerCase term) product =
   Return (search_matchesb term product)).
Proof.
  unfold search_reads_missing_description, ServerJs.searchCallback,
    search_matchesb.
  destruct (includes (toLowerCase (name product)) (toLowerCase term)).
  - right. split; [intros [_ H]; discriminate | reflexivity].
  - destruct (description product) as [text|].
    + right. split; [intros [H _]; discriminate|]. simpl.
      destruct (includes (toLowerCase text) (toLowerCase term));
        [reflexivity|].
      destruct (tags product); reflexivity.
    + left. split; [split; reflexivity | reflexivity].
Qed.

Lemma filter_elements_Return (callback : Product -> outcome bool)
    (l kept : list Product) :
  filter_elements callback l = Return kept ->
  forall p, In p l -> exists keep, callback p = Return keep.
Proof.
  revert kept; induction l as [|x l IH]; simpl; intros kept H p Hp;
    [destruct Hp|].
  destruct (callback x) as [keep|] eqn:Hx; [|discriminate].
  destruct (filter_elements callback l) as [kept'|]; [|discriminate].
  destruct Hp as [<- | Hp]; [exists keep; exact Hx | eapply IH; eauto].
Qed.

Lemma filter_elements_throws (callback : Product -> outcome bool)
    (l : list Product) (p : Product) (e : string) :
  In p l -> callback p = Throw e ->
  exists e', filter_elements callback l = Throw e'.
Proof.
  intros Hp Hthrow.
  destruct (filter_elements callback l) as [kept|e'] eqn:E;
    [|exists e'; reflexivity].
  destruct (filter_elements_Return _ _ _ E p Hp) as [keep Hkeep]. congruence.
Qed.

(** The search stage of [server.js] on a sequence: what a result holds,
    and when there is none. *)
Lemma ServerJs_kept_by_search_Return {R : Runtime} (search : option string)
    (l kept : list Product) :
  kept_by_search ServerJs.searchCallback search l = Return kept ->
  forall p, In p kept <-> In p l /\ passes_search search p.
Proof.
  unfold kept_by_search, passes_search.
  destruct search as [term|];
    [| intros H; injection H as <-; tauto].
  destruct (String.eqb_spec term "") as [-> | Hne];
    [intros H; injection H as <-; tauto|].
  intros H p.
  assert (Hall : Forall (fun x => ServerJs.searchCallback (toLowerCase term) x
                                  = Return (search_matchesb term x)) l).
  { apply List.Forall_forall. intros x Hx.
    destruct (filter_elements_Return _ _ _ H x Hx) as [keep Hkeep].
    destruct (ServerJs_searchCallback_cases term x) as [[_ E] | [_ E]];
      [congruence | exact E]. }
  rewrite (filter_elements_on _ _ _ Hall) in H. injection H as <-.
  rewrite filter_In, search_matchesb_spec. tauto.
Qed.

Lemma ServerJs_kept_by_search_Throw {R : Runtime} (search : option string)
    (l : list Product) :
  (exists e, kept_by_search ServerJs.searchCallback search l = Throw e) <->
  exists term p, search = Some term /\ term <> "" /\ In p l /\
    search_reads_missing_description term p.
Proof.
  unfold kept_by_search. split.
  - intros [e H]. destruct search as [term|]; [|discriminate].
    destruct (String.eqb_spec term "") as [-> | Hne]; [discriminate|].
    apply filter_elements_throw in H as [p [Hp Hthrow]].
    exists term, p. split; [reflexivity|]. split; [exact Hne|].
    split; [exact Hp|].
    destruct (ServerJs_searchCallback_cases term p) as [[Hm _] | [_ E]];
      [exact Hm | congruence].
  - intros [term [p [-> [Hne [Hp Hmiss]]]]].
    apply String.eqb_neq in Hne. rewrite Hne.
    destruct (ServerJs_searchCallback_cases term p) as [[_ E] | [Hno _]];
      [| contradiction].
    eapply filter_elements_throws; eassumption.
Qed.

Lemma sort_elements_in_order (comparator : Product -> Product -> number)
    (l : list Product) :
  StronglySorted (not_after comparator) l ->
  sort_elements comparator l = l.
Proof.
  induction 1 as [|x l Hs IH Hall]; simpl; [reflexivity|].
  rewrite IH. destruct l as [|y l]; [reflexivity|]. simpl.
  apply Forall_cons_iff in Hall as [Hxy _]. unfold not_after in Hxy.
  destruct (sign (comparator x y)); [reflexivity | reflexivity | congruence].
Qed.

Lemma all_not_after_sorted (comparator : Product -> Product -> number)
    (l : list Product) :
  (forall a b, In a l -> In b l -> not_after comparator a b) ->
  StronglySorted (not_after comparator) l.
Proof.
  induction l as [|x l IH]; intros H; constructor.
  - apply IH. intros a b Ha Hb. apply H; right; assumption.
  - apply List.Forall_forall. intros y Hy.
    apply H; [left; reflexivity | right; exact Hy].
Qed.

Lemma filter_none (f : Product -> bool) (l : list Product) :
  (forall x, In x l -> f x = false) -> List.filter f l = [].
Proof.
  induction l as [|x l IH]; simpl; intros H; [reflexivity|].
  rewrite (H x) by (left; reflexivity). apply IH. auto.
Qed.

Lemma filter_all (f : Product -> bool) (l : list Product) :
  (forall x, In x l -> f x = true) -> List.filter f l = l.
Proof.
  induction l as [|x l IH]; simpl; intros H; [reflexivity|].
  rewrite (H x) by (left; reflexivity). rewrite IH by auto. reflexivity.
Qed.

Lemma query_result_after_empty_category {R : Runtime}
    (callback : string -> Product -> outcome bool) (query : Query)
    (ps : list Product) :
  kept_by_category (query_category query) ps = [] ->
  query_result callback query ps = Return [].
Proof.
  intros H. unfold query_result. rewrite H.
  unfold kept_by_availability, kept_by_search.
  destruct (or_default (query_filter query) "all" =? "in-stock"); simpl;
    destruct (or_default (query_filter query) "all" =? "on-sale"); simpl;
    destruct (query_search query) as [term|]; try reflexivity;
    destruct (term =? ""); reflexivity.
Qed.

Lemma filter_elements_kept_true (callback : Product -> outcome bool)
    (l kept : list Product) :
  filter_elements callback l = Return kept ->
  forall p, In p kept -> callback p = Return true.
Proof.
  revert kept; induction l as [|x l IH]; simpl; intros kept H p Hp.
  - injection H as <-. destruct Hp.
  - destruct (callback x) as [keep|] eqn:Hx; [|discriminate].
    destruct (filter_elements callback l) as [kept'|]; [|discriminate].
    injection H as <-. destruct keep.
    + destruct Hp as [<- | Hp]; [exact Hx | eapply IH; eauto].
    + eapply IH; eauto.
Qed.

Lemma sort_elements_not_after (comparator : Product -> Product -> number)
    (valid : Product -> Prop) (order : Product -> Product -> Prop)
    (l : list Product) :
  (forall a b, valid a -> valid b ->
     (not_after comparator a b <-> order a b)) ->
  (forall a b, valid a -> valid b -> order a b \/ order b a) ->
  (forall a b c, valid a -> valid b -> valid c ->
     order a b -> order b c -> order a c) ->
  Forall valid l ->
  StronglySorted (not_after comparator) (sort_elements comparator l).
Proof.
  intros Hiff Htotal Htrans Hl.
  apply sort_elements_sorted with (valid := valid); [| |exact Hl].
  - intros a b Ha Hb E. apply Hiff; [assumption..|].
    destruct (Htotal a b Ha Hb) as [H | H]; [|exact H].
    apply Hiff in H; [|assumption..]. contradiction.
  - intros a b c Ha Hb Hc Hab Hbc.
    apply Hiff; [assumption..|].
    apply Htrans with b; [assumption.. | |]; apply Hiff; assumption.
Qed.

(** The sorted array is in the order of the comparator of its key. *)
Lemma sort_key_in_order {R : Runtime} `{!Collation R} (sortBy : string)
    (l : list Product) :
  (sortBy = "newest" -> Forall has_date l) ->
  StronglySorted (not_after (compareFn sortBy))
    (sort_elements (compareFn sortBy) l).
Proof.
  intros Hdate.
  destruct (String.eqb_spec sortBy "price-low") as [-> | H1].
  { apply sort_elements_not_after
      with (valid := fun _ => True) (order := price_ascending).
    - intros a b _ _. apply compareFn_price_low.
    - intros a b _ _. apply Qle_cases.
    - intros a b c _ _ _. apply Qle_trans.
    - apply Forall_True. }
  destruct (String.eqb_spec sortBy "price-high") as [-> | H2].
  { apply sort_elements_not_after
      with (valid := fun _ => True) (order := price_descending).
    - intros a b _ _. apply compareFn_price_high.
    - intros a b _ _. apply Qle_cases.
    - intros a b c _ _ _ Hab Hbc. exact (Qle_trans _ _ _ Hbc Hab).
    - apply Forall_True. }
  destruct (String.eqb_spec sortBy "rating") as [-> | H3].
  { apply sort_elements_not_after
      with (valid := fun _ => True) (order := rating_descending).
    - intros a b _ _. apply compareFn_rating.
    - intros a b _ _. apply Qle_cases.
    - intros a b c _ _ _ Hab Hbc. exact (Qle_trans _ _ _ Hbc Hab).
    - apply Forall_True. }
  destruct (String.eqb_spec sortBy "newest") as [-> | H4].
  { apply sort_elements_not_after
      with (valid := has_date) (order := newest_first).
    - intros a b. apply compareFn_newest.
    - unfold has_date, newest_first. intros a b Ha Hb.
      destruct (Date_parse (createdAt a)) as [ta|]; [|congruence].
      destruct (Date_parse (createdAt b)) as [tb|]; [|congruence].
      destruct (Z.le_ge_cases ta tb); [right | left]; eauto.
    - unfold newest_first.
      intros a b c _ _ _ [ta [tb [Ea [Eb Hab]]]] [tb' [tc [Eb' [Ec Hbc]]]].
      rewrite Eb in Eb'. injection Eb' as <-.
      exists ta, tc. repeat split; [assumption.. | lia].
    - apply Hdate. reflexivity. }
  apply sort_elements_not_after
    with (valid := fun _ => True) (order := name_ascending).
  - intros a b _ _. apply compareFn_name; assumption.
  - unfold name_ascending. intros a b _ _.
    destruct (Z_lt_le_dec 0 (localeCompare (name a) (name b))) as [H | H].
    + right. apply localeCompare_total, H.
    + left. exact H.
  - unfold name_ascending. intros a b c _ _ _. apply localeCompare_trans.
  - apply Forall_True.
Qed.

Lemma query_result_fixed_point {R : Runtime} `{!Collation R}
    (query : Query) (ps l : list Product) :
  (or_default (query_sort query) "name" = "newest" -> Forall has_date ps) ->
  query_result ServerJs.searchCallback query ps = Return l ->
  query_result ServerJs.searchCallback query l = Return l.
Proof.
  intros Hdate. unfold query_result.
  set (l0 := kept_by_category (query_category query) ps).
  set (l1 := kept_by_availability (or_default (query_filter query) "all") l0).
  destruct (kept_by_search ServerJs.searchCallback (query_search query) l1)
    as [kept|] eqn:Hsearch; [|discriminate].
  intros H. injection H as <-.
  set (cmp := compareFn (or_default (query_sort query) "name")).
  assert (Hkept : forall p, In p (sort_elements cmp kept) -> In p kept)
    by (intros p; apply sort_elements_In).
  assert (Hl1 : forall p, In p kept -> In p l1)
    by (apply (kept_by_search_within _ _ _ _ Hsearch)).
  assert (Hl0 : forall p, In p l1 -> In p l0)
    by (apply kept_by_availability_within).
  assert (Hps : forall p, In p l0 -> In p ps)
    by (apply kept_by_category_within).
  assert (E0 : kept_by_category (query_category query)
                 (sort_elements cmp kept) = sort_elements cmp kept).
  { unfold kept_by_category. subst l0. unfold kept_by_category in Hl0.
    destruct (truthy (query_category query) &&
              strict_neq (query_category query) "all"); [|reflexivity].
    apply filter_all. intros p Hp.
    apply Hkept, Hl1, Hl0 in Hp. apply filter_In in Hp. tauto. }
  assert (E1 : kept_by_availability (or_default (query_filter query) "all")
                 (sort_elements cmp kept) = sort_elements cmp kept).
  { unfold kept_by_availability. subst l1.
    unfold kept_by_availability in Hl1.
    destruct (or_default (query_filter query) "all" =? "in-stock").
    - apply filter_all. intros p Hp.
      apply Hkept, Hl1 in Hp. apply filter_In in Hp. tauto.
    - destruct (or_default (query_filter query) "all" =? "on-sale");
        [|reflexivity].
      apply filter_all. intros p Hp.
      apply Hkept, Hl1 in Hp. apply filter_In in Hp. tauto. }
  rewrite E0, E1.
  assert (E2 : kept_by_search ServerJs.searchCallback (query_search query)
                 (sort_elements cmp kept) = Return (sort_elements cmp kept)).
  { unfold kept_by_search in *.
    destruct (query_search query) as [term|]; [|reflexivity].
    destruct (term =? ""); [reflexivity|].
    rewrite (filter_elements_on _ (fun _ => true)).
    - rewrite filter_all by reflexivity. reflexivity.
    - apply List.Forall_forall. intros p Hp.
      apply (filter_elements_kept_true _ _ _ Hsearch), Hkept, Hp. }
  rewrite E2, sort_elements_in_order; [reflexivity|].
  apply sort_key_in_order. intros Hnewest.
  specialize (Hdate Hnewest). rewrite List.Forall_forall in *.
  intros p Hp. apply Hdate, Hps, Hl0, Hl1, Hp.
Qed.

Lemma ServerJs_kept_by_search_filter {R : Runtime} (search : option string)
    (l kept : list Product) :
  kept_by_search ServerJs.searchCallback search l = Return kept ->
  exists f, kept = List.filter f l.
Proof.
  unfold kept_by_search.
  assert (Hsame : forall k, Return l = Return k ->
            exists f, k = List.filter f l).
  { intros k H. injection H as <-. exists (fun _ => true).
    symmetry. apply filter_all. reflexivity. }
  destruct search as [term|]; [|apply Hsame].
  destruct (term =? ""); [apply Hsame|].
  intros H. exists (search_matchesb term).
  assert (Hall : Forall (fun x => ServerJs.searchCallback (toLowerCase term) x
                                  = Return (search_matchesb term x)) l).
  { apply List.Forall_forall. intros x Hx.
    destruct (filter_elements_Return _ _ _ H x Hx) as [keep Hkeep].
    destruct (ServerJs_searchCallback_cases term x) as [[_ E] | [_ E]];
      [congruence | exact E]. }
  rewrite (filter_elements_on _ _ _ Hall) in H. injection H as <-.
  reflexivity.
Qed.

Lemma NoDup_map_filter {A B} (g : A -> B) (f : A -> bool) (l : list A) :
  List.NoDup (map g l) -> List.NoDup (map g (List.filter f l)).
Proof.
  induction l as [|x l IH]; simpl; intros H; [constructor|].
  apply List.NoDup_cons_iff in H as [Hx Hl].
  destruct (f x); simpl; [|apply IH, Hl].
  constructor; [|apply IH, Hl].
  intros Hin. apply Hx. apply in_map_iff in Hin as [y [E Hy]].
  apply filter_In in Hy as [Hy _]. apply in_map_iff. exists y. auto.
Qed.

Lemma kept_by_category_filter (category : option string)
    (l : list Product) :
  exists f, kept_by_category category l = List.filter f l.
Proof.
  unfold kept_by_category.
  destruct (truthy category && strict_neq category "all");
    [eexists; reflexivity|].
  exists (fun _ => true). symmetry. apply filter_all. reflexivity.
Qed.

Lemma kept_by_availability_filter (filterBy : string) (l : list Product) :
  exists f, kept_by_availability filterBy l = List.filter f l.
Proof.
  unfold kept_by_availability.
  destruct (filterBy =? "in-stock"); [eexists; reflexivity|].
  destruct (filterBy =? "on-sale"); [eexists; reflexivity|].
  exists (fun _ => true). symmetry. apply filter_all. reflexivity.
Qed.

Lemma delay_bounds (c : Middleware.Clock) :
  (0 <= Middleware.random c)%Q -> (Middleware.random c < 1)%Q ->
  (200 <= Middleware.delay c)%Q /\ (Middleware.delay c <= 700)%Q.
Proof.
  unfold Middleware.delay. intros H0 H1. split; lra.
Qed.

(** ** The route on [req.query] *)

(** On a query of strings the route is the handler. *)
Lemma products_route_of_query {R : Runtime} (db : option Database)
    (query : Query) (h : heap) :
  ServerJs.products_route db (of_query query) h =
  ServerJs.products_handler db query h.
Proof.
  destruct query as [[c|] [s|] [f|] [t|]]; reflexivity.
Qed.

Lemma filterByCategoryParam_run (category : option param) (p : loc)
    (l : list Product) (h : heap) :
  h !! p = Some l ->
  ends_with (ServerJs.filterByCategoryParam category p) h p
    (Return
       (kept_by_category (text_of category)
          match category with
          | Some Structured => []
          | _ => l
          end)).
Proof.
  intros Hp. destruct category as [[value|]|]; simpl.
  - apply filterByCategory_run, Hp.
  - pose proof (Array_filter_run (fun _ => Return false) p l h Hp) as Hrun.
    rewrite filter_elements_total, filter_none in Hrun by reflexivity.
    exact Hrun.
  - apply filterByCategory_run, Hp.
Qed.

Lemma filterBySearchParam_run {R : Runtime} (search : option param)
    (p : loc) (l : list Product) (h : heap) :
  h !! p = Some l ->
  match search with
  | Some Structured =>
      ServerJs.filterBySearchParam search p h =
      (Throw "search.toLowerCase is not a function", h)
  | _ =>
      ends_with (ServerJs.filterBySearchParam search p) h p
        (kept_by_search ServerJs.searchCallback (text_of search) l)
  end.
Proof.
  intros Hp. destruct search as [[term|]|]; simpl.
  - apply (ServerJs_filterBySearch_run (Some term)), Hp.
  - reflexivity.
  - apply (ServerJs_filterBySearch_run None), Hp.
Qed.

(** The route answers with the result of the Query Engine on the elements
    of the store, leaves every array of the heap as it was, and holds a
    list answer in an array that was not there. *)
Lemma ServerJs_products_route_run {R : Runtime} (store : loc)
    (ps : list Product) (query : ReqQuery) (h : heap) :
  h !! store = Some ps ->
  exists h',
    ServerJs.products_route (Some (mkDatabase (Some store))) query h =
    (Return (respond (route_result query ps)), h') /\
    h ⊆ h' /\
    forall l, route_result query ps = Return l ->
      exists p', h !! p' = None /\ h' !! p' = Some l.
Proof.
  intros Hstore. unfold route_result, query_result.
  cbv beta iota zeta delta [ServerJs.products_route try_catch products].
  destruct (spread_run store ps h Hstore) as [p0 [E0 Hfree0]].
  rewrite (bind_Return _ _ _ _ _ E0).
  assert (I0 : private h p0 ps (<[p0 := ps]> h)).
  { split; [apply lookup_insert_eq|].
    split; [apply insert_subseteq, Hfree0 | exact Hfree0]. }
  destruct (private_step h _ _ _ _ _ I0
              (filterByCategoryParam_run (req_category query) p0 ps _
                 (proj1 I0))) as [p1 [h1 [E1 I1]]].
  rewrite (bind_Return _ _ _ _ _ E1).
  destruct (private_step h _ _ _ _ _ I1
              (filterByAvailability_run
                 (or_default (text_of (req_filter query)) "all") p1 _ _
                 (proj1 I1)))
    as [p2 [h2 [E2 I2]]].
  rewrite (bind_Return _ _ _ _ _ E2).
  pose proof (filterBySearchParam_run (req_search query) p2 _ _ (proj1 I2))
    as Hsearch.
  simpl query_search. simpl query_filter. simpl query_category.
  simpl query_sort.
  assert (Hend : forall kept,
            ends_with (ServerJs.filterBySearchParam (req_search query) p2)
              h2 p2 (Return kept) ->
            exists h',
              (let (o, h'0) :=
                 (let* products :=
                    ServerJs.filterBySearchParam (req_search query) p2 in
                  let* products0 :=
                    sortProducts
                      (or_default (text_of (req_sort query)) "name")
                      products in
                  let* l := contents products0 in ret (res_json l)) h2 in
               match o with
               | Return a => (Return a, h'0)
               | Throw e =>
                   ret (res_error 500 "Internal server error" (Some e)) h'0
               end) =
              (Return
                 (res_json
                    (sort_elements
                       (compareFn
                          (or_default (text_of (req_sort query)) "name"))
                       kept)), h') /\
              h ⊆ h' /\
              exists p', h !! p' = None /\
                h' !! p' =
                Some
                  (sort_elements
                     (compareFn
                        (or_default (text_of (req_sort query)) "name"))
                     kept)).
  { intros kept Hkept.
    destruct (private_step h _ _ _ _ _ I2 Hkept) as [p3 [h3 [E3 I3]]].
    rewrite (bind_Return _ _ _ _ _ E3).
    destruct I3 as [Hp3 [Hsub3 Hnew3]].
    unfold sortProducts.
    rewrite (bind_Return _ _ _ _ _ (Array_sort_run _ p3 kept h3 Hp3)).
    unfold bind, contents. rewrite lookup_insert_eq.
    eexists. split; [reflexivity|].
    split; [apply insert_subseteq_r; assumption|].
    exists p3. split; [exact Hnew3 | apply lookup_insert_eq]. }
  assert (Hcat : match req_category query with
                 | Some Structured => []
                 | _ => ps
                 end =
                 match req_category query with
                 | Some Structured => []
                 | _ => ps
                 end) by reflexivity.
  destruct (req_search query) as [[term|]|] eqn:Hs.
  - destruct (kept_by_search ServerJs.searchCallback (text_of (Some (Text term))) _)
      as [kept|e] eqn:Hk.
    + destruct (Hend kept Hsearch) as [h' [E [Hsub Hp']]].
      exists h'. split; [exact E|]. split; [exact Hsub|].
      intros l Hl. injection Hl as <-. exact Hp'.
    + simpl in Hsearch. rewrite (bind_Throw _ _ _ _ _ Hsearch).
      exists h2. split; [reflexivity|]. split; [apply I2 | discriminate].
  - rewrite (bind_Throw _ _ _ _ _ Hsearch).
    exists h2. split; [reflexivity|]. split; [apply I2 | discriminate].
  - destruct (Hend _ Hsearch) as [h' [E [Hsub Hp']]].
    exists h'. split; [exact E|]. split; [exact Hsub|].
    intros l Hl. injection Hl as <-. exact Hp'.
Qed.

(** The route leaves every array of the heap as it was, whatever the
    database and the query. *)
Lemma ServerJs_products_route_frame {R : Runtime} (db : option Database)
    (query : ReqQuery) (h : heap) :
  h ⊆ snd (ServerJs.products_route db query h).
Proof.
  destruct db as [[[store|]]|]; [| reflexivity | reflexivity].
  destruct (h !! store) as [ps|] eqn:Hstore.
  - destruct (ServerJs_products_route_run store ps query h Hstore)
      as [h' [E [Hsub _]]].
    rewrite E. exact Hsub.
  - cbv beta iota zeta delta
      [ServerJs.products_route try_catch products spread bind contents].
    rewrite Hstore. reflexivity.
Qed.

(** What the result of the route is made of. *)
Lemma route_result_Return {R : Runtime} (query : ReqQuery)
    (ps l : list Product) :
  route_result query ps = Return l ->
  req_search query <> Some Structured /\
  exists kept,
    kept_by_search ServerJs.searchCallback (text_of (req_search query))
      (kept_by_availability (or_default (text_of (req_filter query)) "all")
         (kept_by_category (text_of (req_category query))
            match req_category query with
            | Some Structured => []
            | _ => ps
            end)) = Return kept /\
    l = sort_elements
          (compareFn (or_default (text_of (req_sort query)) "name")) kept.
Proof.
  unfold route_result, query_result. simpl.
  destruct (req_search query) as [[term|]|]; [| discriminate |];
    destruct (kept_by_search _ _ _) as [kept|]; try discriminate;
    intros E; injection E as <-;
    (split; [discriminate|]); exists kept; split; reflexivity.
Qed.

Lemma route_input_within (category : option param) (ps : list Product)
    (p : Product) :
  In p match category with
       | Some Structured => []
       | _ => ps
       end ->
  In p ps /\ category <> Some Structured.
Proof.
  destruct category as [[value|]|]; simpl; intros H;
    try (split; [exact H | discriminate]).
  destruct H.
Qed.

(** The elements of a list answer of the route passed the three stages. *)
Lemma route_result_In {R : Runtime} (query : ReqQuery)
    (ps l : list Product) :
  route_result query ps = Return l ->
  forall product,
    In product l <->
    In product ps /\
    passes_category_param (req_category query) product /\
    passes_availability (text_of (req_filter query)) product /\
    passes_search (text_of (req_search query)) product.
Proof.
  intros H product.
  apply route_result_Return in H as [_ [kept [Hk ->]]].
  rewrite sort_elements_In, (ServerJs_kept_by_search_Return _ _ _ Hk),
    kept_by_availability_In, kept_by_category_In.
  unfold passes_category_param.
  destruct (req_category query) as [[value|]|]; simpl; tauto.
Qed.

Lemma route_result_within {R : Runtime} (query : ReqQuery)
    (ps l : list Product) :
  route_result query ps = Return l ->
  (length l <= length ps)%nat /\ forall p, In p l -> In p ps.
Proof.
  intros H. split.
  - apply route_result_Return in H as [_ [kept [Hk ->]]].
    rewrite sort_elements_length.
    apply kept_by_search_within in Hk as [Hlen _].
    etransitivity; [exact Hlen|].
    etransitivity; [apply kept_by_availability_within|].
    etransitivity; [apply kept_by_category_within|].
    destruct (req_category query) as [[value|]|]; simpl; lia.
  - intros p Hp. apply (route_result_In _ _ _ H), Hp.
Qed.

(** On records that have a description a search for a string does not
    throw. *)
Lemma route_result_described {R : Runtime} (query : ReqQuery)
    (ps : list Product) :
  req_search query <> Some Structured ->
  Forall has_description ps ->
  exists l, route_result query ps = Return l.
Proof.
  intros Hs Hdesc. unfold route_result.
  assert (Hin : Forall has_description
                  match req_category query with
                  | Some Structured => []
                  | _ => ps
                  end)
    by (destruct (req_category query) as [[value|]|];
        [exact Hdesc | constructor | exact Hdesc]).
  destruct (req_search query) as [[term|]|];
    [| contradiction |]; apply query_result_described, Hin.
Qed.

(** Without a search term nothing is read that could be missing. *)
Lemma route_result_without_search {R : Runtime} (query : ReqQuery)
    (ps : list Product) :
  req_search query = None \/ req_search query = Some (Text "") ->
  exists l, route_result query ps = Return l.
Proof.
  unfold route_result, query_result, kept_by_search, text_query. simpl.
  intros [-> | ->]; simpl; eexists; reflexivity.
Qed.

(** Filters keep the order of what they keep. *)
Lemma filter_keeps_order (f : Product -> bool) (a b : Product)
    (l : list Product) :
  precedes a b l -> f a = true -> f b = true ->
  precedes a b (List.filter f l).
Proof.
  intros H Ha Hb. induction l as [|x l IH]; simpl.
  - destruct (precedes_nil _ _ H).
  - apply precedes_cons in H as [[-> Hin] | H].
    + rewrite Ha. apply precedes_cons. left. split; [reflexivity|].
      apply filter_In. auto.
    + destruct (f x); [apply precedes_cons; right|]; apply IH, H.
Qed.



(** A list answer of the route is made of the store by three filters and
    the sort. *)
Lemma route_result_filters {R : Runtime} (query : ReqQuery)
    (ps l : list Product) :
  route_result query ps = Return l ->
  exists f1 f2 f3,
    l = sort_elements
          (compareFn (or_default (text_of (req_sort query)) "name"))
          (List.filter f3 (List.filter f2 (List.filter f1 ps))).
Proof.
  intros H. apply route_result_Return in H as [_ [kept [Hk ->]]].
  destruct (ServerJs_kept_by_search_filter _ _ _ Hk) as [f3 ->].
  destruct (kept_by_availability_filter
              (or_default (text_of (req_filter query)) "all")
              (kept_by_category (text_of (req_category query))
                 match req_category query with
                 | Some Structured => []
                 | _ => ps
                 end)) as [f2 ->].
  destruct (req_category query) as [[value|]|].
  - destruct (kept_by_category_filter (text_of (Some (Text value))) ps)
      as [f1 ->].
    exists f1, f2, f3. reflexivity.
  - exists (fun _ => false), f2, f3.
    rewrite (filter_none (fun _ => false) ps) by reflexivity. reflexivity.
  - destruct (kept_by_category_filter (text_of None) ps) as [f1 ->].
    exists f1, f2, f3. reflexivity.
Qed.

(** * The claims *)

(** C1, as amended: on records that have a [description], with [tags]
    present or absent, the route of [server.js] answers every query whose
    [search] parameter is absent or a string with a product list and raises
    no error, and its search treats a record without [tags] as the same
    record with no tag; a [search] parameter that is an array or an object
    is answered with the error 500. *)
Theorem C1_total_on_described_records (R : Runtime) (store : loc)
    (ps : list Product) (query : ReqQuery) (h : heap) :
  h !! store = Some ps ->
  Forall has_description ps ->
  (req_search query <> Some Structured ->
   exists l h',
     ServerJs.products_route (Some (mkDatabase (Some store))) query h =
     (Return (res_json l), h')) /\
  (req_search query = Some Structured ->
   exists h',
     ServerJs.products_route (Some (mkDatabase (Some store))) query h =
     (Return
        (res_error 500 "Internal server error"
           (Some "search.toLowerCase is not a function")), h')) /\
  (forall searchLower product, tags product = None ->
     ServerJs.searchCallback searchLower product =
     ServerJs.searchCallback searchLower (with_tags product [])).
Proof.
  intros Hstore Hdesc.
  destruct (ServerJs_products_route_run store ps query h Hstore)
    as [h' [E _]].
  split; [|split].
  - intros Hs.
    destruct (route_result_described query ps Hs Hdesc) as [l Hl].
    rewrite Hl in E. exists l, h'. exact E.
  - intros Hs. exists h'. rewrite E. unfold route_result. rewrite Hs.
    reflexivity.
  - intros searchLower product Htags. unfold ServerJs.searchCallback.
    simpl. rewrite Htags. reflexivity.
Qed.

(** C1 at a concrete store: the gadget has a description and no [tags],
    and the search for "zet" is answered with the empty list. *)
Lemma C1_total_on_described_records_witness :
  exists l h',
    ServerJs.products_route (R := SampleRuntime.runtime)
      (Some (mkDatabase (Some 1%positive)))
      (mkReqQuery None None None (Some (Text "zet")))
      {[1%positive := [SampleRuntime.gadget]]} =
    (Return (res_json l), h').
Proof.
  apply (C1_total_on_described_records SampleRuntime.runtime 1%positive
           [SampleRuntime.gadget]
           (mkReqQuery None None None (Some (Text "zet")))
           {[1%positive := [SampleRuntime.gadget]]} (singleton_store _ _)).
  - repeat constructor; discriminate.
  - discriminate.
Defined.

(** C1 as stated fails: on the two records of the specification's
    examples, which have neither [description] nor [tags], the search for
    "zet" finds no match in the name "Alpha" and then reads [description]:
    [server.js] answers with the error 500. *)
Lemma C1_search_fails_on_missing_description :
  fst (ServerJs.serve_route (R := SampleRuntime.runtime)
         (ServerJs.ParsedObject
            (Some [SampleRuntime.zeta; SampleRuntime.alpha]))
         (mkReqQuery None None None (Some (Text "zet"))) ∅) =
  Return
    (res_error 500 "Internal server error"
       (Some "Cannot read properties of undefined (reading 'toLowerCase')")).
Proof. vm_compute. reflexivity. Qed.

(** C2: the route of [server.js] works on a copy: whatever the query, it
    answers and leaves every array of the heap, the store's among them,
    with the elements it had in the order they had, and a list answer is
    held by an array that is not the store's and was not there before. *)
Theorem C2_query_leaves_the_store_unchanged (R : Runtime) (store : loc)
    (ps : list Product) (query : ReqQuery) (h : heap) :
  h !! store = Some ps ->
  exists response h',
    ServerJs.products_route (Some (mkDatabase (Some store))) query h =
    (Return response, h') /\
    h' !! store = Some ps /\
    (forall r l, h !! r = Some l -> h' !! r = Some l) /\
    (forall l, body response = ProductList l ->
       exists p', p' <> store /\ h !! p' = None /\ h' !! p' = Some l).
Proof.
  intros Hstore.
  destruct (ServerJs_products_route_run store ps query h Hstore)
    as [h' [E [Hsub Hnew]]].
  eexists; exists h'. split; [exact E|].
  split; [eapply lookup_weaken; eassumption|].
  split; [intros r l Hr; eapply lookup_weaken; eassumption|].
  destruct (route_result query ps) as [result|e]; simpl;
    [|discriminate].
  intros l Hl. injection Hl as <-.
  destruct (Hnew result eq_refl) as [p' [Hfree Hp']].
  exists p'. split; [| split; assumption].
  intros Heq. rewrite Heq in Hfree.
  pose proof (eq_trans (eq_sym Hstore) Hfree) as Habsurd.
  discriminate Habsurd.
Qed.

(** C2 at a concrete store: after a request sorted by "price-low" the
    store still holds Zeta before Alpha. *)
Lemma C2_query_leaves_the_store_unchanged_witness :
  snd (ServerJs.products_route (R := SampleRuntime.runtime)
         (Some (mkDatabase (Some 1%positive)))
         (mkReqQuery None (Some (Text "price-low")) None None)
         {[1%positive := [SampleRuntime.zeta; SampleRuntime.alpha]]})
    !! 1%positive = Some [SampleRuntime.zeta; SampleRuntime.alpha].
Proof.
  destruct (C2_query_leaves_the_store_unchanged SampleRuntime.runtime
              1%positive [SampleRuntime.zeta; SampleRuntime.alpha]
              (mkReqQuery None (Some (Text "price-low")) None None)
              {[1%positive := [SampleRuntime.zeta; SampleRuntime.alpha]]}
              (singleton_store _ _)) as [response [h' [E [Hstore _]]]].
  refine (eq_trans _ Hstore).
  exact (f_equal (fun run => snd run !! 1%positive) E).
Defined.

(** C3, as amended: for a non-empty search term, on records that have a
    [description], the search filter of [server.js] builds a new array of
    exactly the products for which the lowercased term is a substring of
    the lowercased name, or of the lowercased description, or of a
    lowercased tag, in their order; terms with the same lowercase form give
    the same filter, and so "WIDGET" and "widget" give the same answer. *)
Theorem C3_search_filter (R : Runtime) (L : Lowercasing R) (term : string)
    (p : loc) (l : list Product) (h : heap) :
  h !! p = Some l -> term <> "" -> Forall has_description l ->
  (exists p',
     ServerJs.filterBySearch (Some term) p h =
     (Return p', <[p' := List.filter (search_matchesb term) l]> h) /\
     h !! p' = None) /\
  (forall product,
     In product (List.filter (search_matchesb term) l) <->
     In product l /\ search_matches term product) /\
  (forall other, other <> "" -> toLowerCase other = toLowerCase term ->
   ServerJs.filterBySearch (Some other) p h =
   ServerJs.filterBySearch (Some term) p h) /\
  toLowerCase "WIDGET" = toLowerCase "widget" /\
  (forall db category sort filter h0,
     ServerJs.products_route db
       (mkReqQuery category sort filter (Some (Text "WIDGET"))) h0 =
     ServerJs.products_route db
       (mkReqQuery category sort filter (Some (Text "widget"))) h0).
Proof.
  intros Hp Hterm Hdesc. apply String.eqb_neq in Hterm.
  assert (Hwidget : toLowerCase "WIDGET" = toLowerCase "widget")
    by (rewrite !toLowerCase_ascii by reflexivity; reflexivity).
  split; [| split; [| split; [| split]]].
  - unfold ServerJs.filterBySearch. rewrite Hterm.
    unfold Array_filter, bind, contents. rewrite Hp.
    rewrite (filter_elements_on _ (search_matchesb term)).
    + apply alloc_run.
    + revert Hdesc. apply List.Forall_impl. intros product.
      apply ServerJs_searchCallback_described.
  - intros product. rewrite filter_In, search_matchesb_spec. reflexivity.
  - intros other Hother Hlower. apply String.eqb_neq in Hother.
    unfold ServerJs.filterBySearch. rewrite Hterm, Hother, Hlower.
    reflexivity.
  - exact Hwidget.
  - intros db category sort filter h0.
    unfold ServerJs.products_route, ServerJs.filterBySearchParam,
      ServerJs.filterBySearch.
    simpl. rewrite Hwidget. reflexivity.
Qed.

(** C3 at a concrete store: "WIDGET" keeps the widget, by its name, and
    drops the gadget. *)
Lemma C3_search_filter_witness :
  exists p',
    ServerJs.filterBySearch (R := SampleRuntime.runtime) (Some "WIDGET")
      1%positive
      {[1%positive := [SampleRuntime.widget; SampleRuntime.gadget]]} =
    (Return p',
     <[p' := [SampleRuntime.widget]]>
       {[1%positive := [SampleRuntime.widget; SampleRuntime.gadget]]}).
Proof.
  destruct (C3_search_filter SampleRuntime.runtime sample_lowercasing
              "WIDGET" 1%positive
              [SampleRuntime.widget; SampleRuntime.gadget]
              {[1%positive := [SampleRuntime.widget; SampleRuntime.gadget]]}
              (singleton_store _ _)) as [[p' [E _]] _].
  - discriminate.
  - repeat constructor; discriminate.
  - exists p'. exact E.
Defined.

(** C3 as stated fails: on the two records of the specification's
    examples, which have no [description], the search filter with the term
    "zet" keeps no sequence at all: it throws on Alpha. *)
Lemma C3_search_filter_throws_without_description :
  ServerJs.filterBySearch (R := SampleRuntime.runtime) (Some "zet")
    1%positive
    {[1%positive := [SampleRuntime.zeta; SampleRuntime.alpha]]} =
  (Throw "Cannot read properties of undefined (reading 'toLowerCase')",
   {[1%positive := [SampleRuntime.zeta; SampleRuntime.alpha]]}) /\
  search_matches (R := SampleRuntime.runtime) "zet" SampleRuntime.zeta.
Proof.
  split; [vm_compute; reflexivity|].
  left. exists "", "a". reflexivity.
Qed.



(** C5: the sort is stable for every key, for a runtime whose
    [localeCompare] is a collation and, under "newest", for products whose
    [createdAt] is a date: two products of the filtered sequence that
    compare equal under the comparator of the key stand in the sorted array
    in the order they stood in before the sort, and two products of a list
    answer of the route that compare equal stand in it in the order they
    have in the store. *)
Theorem C5_sort_is_stable (R : Runtime) (C : Collation R) (sortBy : string)
    (p : loc) (l : list Product) (h : heap) (a b : Product) :
  h !! p = Some l ->
  (sortBy = "newest" -> Forall has_date l) ->
  precedes a b l ->
  sign (compareFn sortBy a b) = Eq ->
  (exists sorted,
     sortProducts sortBy p h = (Return p, <[p := sorted]> h) /\
     Permutation sorted l /\
     precedes a b sorted) /\
  (forall query answer h',
     or_default (text_of (req_sort query)) "name" = sortBy ->
     ServerJs.products_route (Some (mkDatabase (Some p))) query h =
     (Return (res_json answer), h') ->
     In a answer -> In b answer ->
     precedes a b answer).
Proof.
  intros Hp Hdate Hab Heq.
  assert (Hnot : not_after (compareFn sortBy) a b)
    by (unfold not_after; rewrite Heq; discriminate).
  split.
  - exists (sort_elements (compareFn sortBy) l).
    split; [apply Array_sort_run, Hp|].
    split; [apply sort_elements_perm|].
    apply sort_elements_stable; assumption.
  - intros query answer h' Hkey Hrun Ha Hb.
    destruct (ServerJs_products_route_run p l query h Hp) as [h1 [E _]].
    rewrite E in Hrun. injection Hrun as Hresp _.
    destruct (route_result query l) as [result|] eqn:Hresult;
      [|discriminate].
    injection Hresp as ->.
    destruct (route_result_filters _ _ _ Hresult) as [f1 [f2 [f3 ->]]].
    rewrite Hkey in *.
    apply sort_elements_In in Ha, Hb.
    apply filter_In in Ha as [Ha Ha3], Hb as [Hb Hb3].
    apply filter_In in Ha as [Ha Ha2], Hb as [Hb Hb2].
    apply filter_In in Ha as [_ Ha1], Hb as [_ Hb1].
    apply sort_elements_stable; [|exact Hnot].
    repeat apply filter_keeps_order; assumption.
Qed.

(** C5 at a concrete store: the widget and Alpha both have rating 4, and
    the widget, first in the store, stays before Alpha under "rating". *)
Lemma C5_sort_is_stable_witness :
  exists sorted,
    sortProducts (R := SampleRuntime.runtime) "rating" 1%positive
      {[1%positive :=
          [SampleRuntime.widget; SampleRuntime.zeta; SampleRuntime.alpha]]} =
    (Return 1%positive,
     <[1%positive := sorted]>
       {[1%positive :=
           [SampleRuntime.widget; SampleRuntime.zeta; SampleRuntime.alpha]]})
    /\ precedes SampleRuntime.widget SampleRuntime.alpha sorted.
Proof.
  destruct (C5_sort_is_stable SampleRuntime.runtime sample_collation
              "rating" 1%positive
              [SampleRuntime.widget; SampleRuntime.zeta; SampleRuntime.alpha]
              {[1%positive :=
                  [SampleRuntime.widget; SampleRuntime.zeta;
                   SampleRuntime.alpha]]}
              SampleRuntime.widget SampleRuntime.alpha
              (singleton_store _ _)) as [[sorted [E [_ H]]] _].
  - discriminate.
  - exists [], [SampleRuntime.zeta], []. reflexivity.
  - reflexivity.
  - exists sorted. split; [exact E | exact H].
Defined.

(** C6: the availability filter with "in-stock" builds a new array of
    exactly the products whose [inStock] is true; with "on-sale", of exactly
    the products whose [price] is less than their [originalPrice]; with
    "all", with the parameter absent or with any other value it is not run,
    the array stays the one it was, and no error is raised. *)
Theorem C6_availability_filter (filter : option string)
    (p : loc) (l : list Product) (h : heap) :
  h !! p = Some l ->
  (filter = Some "in-stock" ->
   exists p',
     filterByAvailability (or_default filter "all") p h =
     (Return p', <[p' := List.filter inStock l]> h) /\
     h !! p' = None) /\
  (filter = Some "on-sale" ->
   exists p',
     filterByAvailability (or_default filter "all") p h =
     (Return p',
      <[p' := List.filter
                (fun product =>
                   less_than (price product) (originalPrice product)) l]> h)
     /\ h !! p' = None /\
     forall product,
       less_than (price product) (originalPrice product) = true <->
       (price product < originalPrice product)%Q) /\
  (filter <> Some "in-stock" -> filter <> Some "on-sale" ->
   filterByAvailability (or_default filter "all") p h = (Return p, h)).
Proof.
  intros Hp. repeat split.
  - intros ->. simpl. unfold filterByAvailability. simpl.
    apply Array_filter_total_run, Hp.
  - intros ->. simpl. unfold filterByAvailability. simpl.
    destruct (Array_filter_total_run
                (fun product =>
                   less_than (price product) (originalPrice product))
                p l h Hp) as [p' [E Hfree]].
    exists p'. split; [exact E|]. split; [exact Hfree|].
    intros product. apply less_than_spec.
  - intros H1 H2. unfold filterByAvailability.
    assert (E1 : (or_default filter "all" =? "in-stock") = false).
    { destruct filter as [s|]; [|reflexivity]. simpl.
      destruct (String.eqb_spec s ""); [reflexivity|].
      apply String.eqb_neq. congruence. }
    assert (E2 : (or_default filter "all" =? "on-sale") = false).
    { destruct filter as [s|]; [|reflexivity]. simpl.
      destruct (String.eqb_spec s ""); [reflexivity|].
      apply String.eqb_neq. congruence. }
    rewrite E1, E2. reflexivity.
Qed.

(** C6 at a concrete store: "on-sale" keeps Alpha (20 < 40) and drops Zeta
    (50 = 50); an unknown value keeps both. *)
Lemma C6_availability_filter_witness :
  (exists p',
     filterByAvailability "on-sale" 1%positive
       {[1%positive := [SampleRuntime.zeta; SampleRuntime.alpha]]} =
     (Return p',
      <[p' := [SampleRuntime.alpha]]>
        {[1%positive := [SampleRuntime.zeta; SampleRuntime.alpha]]})) /\
  filterByAvailability "cheap" 1%positive
    {[1%positive := [SampleRuntime.zeta; SampleRuntime.alpha]]} =
  (Return 1%positive,
   {[1%positive := [SampleRuntime.zeta; SampleRuntime.alpha]]}).
Proof.
  split.
  - destruct (C6_availability_filter (Some "on-sale")
                1%positive [SampleRuntime.zeta; SampleRuntime.alpha]
                {[1%positive := [SampleRuntime.zeta; SampleRuntime.alpha]]}
                (singleton_store _ _)) as [_ [H _]].
    destruct (H eq_refl) as [p' [E _]]. exists p'. exact E.
  - apply (C6_availability_filter (Some "cheap")
             1%positive [SampleRuntime.zeta; SampleRuntime.alpha]
             {[1%positive := [SampleRuntime.zeta; SampleRuntime.alpha]]}
             (singleton_store _ _)); discriminate.
Defined.

(** C7, as amended: when the [category] parameter is present, not empty
    and not "all", the category filter builds a new array that holds exactly
    the products whose [categoryId] is strictly equal to the parameter, a
    string, in their order, and leaves the array it read as it was; when the
    parameter is absent, empty or "all", the filter is not run and the array
    stays the one it was. *)
Theorem C7_category_filter (category : option string)
    (p : loc) (l : list Product) (h : heap) :
  h !! p = Some l ->
  (forall value, category = Some value -> value <> "" -> value <> "all" ->
     exists p' h',
       filterByCategory category p h = (Return p', h') /\
       h' !! p' =
       Some
         (List.filter
            (fun product => strict_eq_string (categoryId product) value) l) /\
       h' !! p = Some l /\
       forall product,
         In product
           (List.filter
              (fun product => strict_eq_string (categoryId product) value) l)
         <-> In product l /\ categoryId product = IdStr value) /\
  (category = None \/ category = Some "" \/ category = Some "all" ->
   filterByCategory category p h = (Return p, h)).
Proof.
  intros Hp. split.
  - intros value -> Hne Hall. unfold filterByCategory. simpl.
    apply String.eqb_neq in Hne, Hall. rewrite Hne, Hall. simpl.
    destruct (Array_filter_total_run
                (fun product => strict_eq_string (categoryId product) value)
                p l h Hp) as [p' [E Hfree]].
    exists p', (<[p' := List.filter
                     (fun product =>
                        strict_eq_string (categoryId product) value) l]> h).
    split; [exact E|]. split; [apply lookup_insert_eq|]. split.
    + rewrite lookup_insert_ne; [exact Hp | congruence].
    + intros product. rewrite filter_In, strict_eq_string_spec. reflexivity.
  - intros [-> | [-> | ->]]; reflexivity.
Qed.

(** C7 at a concrete store: the category "a" keeps Zeta and Alpha and
    drops the gadget, whose [categoryId] is the number 7. *)
Lemma C7_category_filter_witness :
  exists p' h',
    filterByCategory (Some "a") 1%positive
      {[1%positive :=
          [SampleRuntime.zeta; SampleRuntime.gadget; SampleRuntime.alpha]]} =
    (Return p', h') /\
    h' !! p' = Some [SampleRuntime.zeta; SampleRuntime.alpha].
Proof.
  destruct (C7_category_filter (Some "a") 1%positive
              [SampleRuntime.zeta; SampleRuntime.gadget; SampleRuntime.alpha]
              {[1%positive :=
                  [SampleRuntime.zeta; SampleRuntime.gadget;
                   SampleRuntime.alpha]]} (singleton_store _ _)) as [H _].
  destruct (H "a" eq_refl) as [p' [h' [E [Hkept _]]]];
    [discriminate | discriminate |].
  exists p', h'. split; [exact E | exact Hkept].
Defined.

(** C7 as stated fails on the empty parameter: it is present and is not
    "all", yet the answer holds Zeta, whose [categoryId] is "a". *)
Lemma C7_empty_category_is_not_matched :
  fst (ServerJs.serve (R := SampleRuntime.runtime)
         (ServerJs.ParsedObject (Some [SampleRuntime.zeta]))
         (mkQuery (Some "") None None None) ∅) =
  Return (res_json [SampleRuntime.zeta]) /\
  strict_eq (categoryId SampleRuntime.zeta) (Some "") = false /\
  fst (CustomServer.products_handler (R := SampleRuntime.runtime)
         (Some (mkDatabase (Some 1%positive)))
         (mkQuery (Some "") None None None)
         {[1%positive := [SampleRuntime.zeta]]}) =
  Return (res_json [SampleRuntime.zeta]).
Proof. repeat split; vm_compute; reflexivity. Qed.

(** C8, as amended: the route of [server.js] answers every request on a
    store; an answer with a product list has status 200, the list is no
    longer than the store and each of its elements is an element of the
    store, so that its [id] is the [id] of a stored record; the answer is
    such a list, possibly empty, when the [search] parameter is absent or
    empty, and when it is a string and the records have a [description]. *)
Theorem C8_result_within_store (R : Runtime) (store : loc)
    (ps : list Product) (query : ReqQuery) (h : heap) :
  h !! store = Some ps ->
  exists response h',
    ServerJs.products_route (Some (mkDatabase (Some store))) query h =
    (Return response, h') /\
    (forall l, body response = ProductList l ->
       status response = 200%nat /\
       (length l <= length ps)%nat /\
       forall product, In product l ->
         In product ps /\ In (id product) (map id ps)) /\
    (req_search query = None \/ req_search query = Some (Text "") ->
     exists l, response = res_json l) /\
    (req_search query <> Some Structured -> Forall has_description ps ->
     exists l, response = res_json l).
Proof.
  intros Hstore.
  destruct (ServerJs_products_route_run store ps query h Hstore)
    as [h' [E _]].
  eexists; exists h'. split; [exact E|]. split; [|split].
  - destruct (route_result query ps) as [result|e] eqn:Hresult; simpl;
      [|discriminate].
    intros l Hl. injection Hl as <-.
    apply route_result_within in Hresult as [Hlen Hin].
    split; [reflexivity|]. split; [exact Hlen|].
    intros product Hp. split; [auto | apply in_map; auto].
  - intros Hs.
    destruct (route_result_without_search query ps Hs) as [l ->].
    exists l. reflexivity.
  - intros Hs Hdesc.
    destruct (route_result_described query ps Hs Hdesc) as [l ->].
    exists l. reflexivity.
Qed.

(** C8 at a concrete store: the search for "pocket" answers with a list
    of products of the store. *)
Lemma C8_result_within_store_witness :
  exists l,
    fst (ServerJs.products_route (R := SampleRuntime.runtime)
           (Some (mkDatabase (Some 1%positive)))
           (mkReqQuery None None None (Some (Text "pocket")))
           {[1%positive := [SampleRuntime.widget; SampleRuntime.gadget]]}) =
    Return (res_json l) /\
    (length l <= 2)%nat /\
    forall product, In product l ->
      In product [SampleRuntime.widget; SampleRuntime.gadget].
Proof.
  destruct (C8_result_within_store SampleRuntime.runtime 1%positive
              [SampleRuntime.widget; SampleRuntime.gadget]
              (mkReqQuery None None None (Some (Text "pocket")))
              {[1%positive := [SampleRuntime.widget; SampleRuntime.gadget]]}
              (singleton_store _ _))
    as [response [h' [E [Hlist [_ Hsome]]]]].
  destruct Hsome as [l ->];
    [discriminate | repeat constructor; discriminate |].
  exists l. split; [exact (f_equal fst E)|].
  destruct (Hlist l eq_refl) as [_ [Hlen Hin]].
  split; [exact Hlen | intros product Hp; apply Hin, Hp].
Defined.

(** C8 as stated fails: on the two records of the specification's
    examples the search for "zet" is answered with an error object, not
    with a sequence. *)
Lemma C8_no_sequence_on_missing_description :
  exists response,
    fst (ServerJs.products_route (R := SampleRuntime.runtime)
           (Some (mkDatabase (Some 1%positive)))
           (mkReqQuery None None None (Some (Text "zet")))
           {[1%positive := [SampleRuntime.zeta; SampleRuntime.alpha]]}) =
    Return response /\
    status response = 500%nat /\
    forall l, body response <> ProductList l.
Proof.
  eexists. split; [vm_compute; reflexivity|].
  split; [reflexivity | discriminate].
Qed.

(** C9, as amended: when reading or parsing the data file fails at
    startup, the server falls back to empty collections and every request
    to the products endpoint whose [search] parameter is absent or a string
    is answered with status 200 and the empty list; when the loaded
    database has no [products], every request is answered with the error 500
    "Database not loaded" and neither a filter nor the sort is run: the heap
    stays as it was, as it does under the guard of the route for a database
    that is null. A data file that holds [null] is rejected when the module
    loads, and no request is served. *)
Theorem C9_load_failure_falls_back_to_empty_store (R : Runtime)
    (query : ReqQuery) (h : heap) :
  (req_search query <> Some Structured ->
   exists h',
     ServerJs.serve_route ServerJs.Unreadable query h =
     (Return (res_json []), h')) /\
  (req_search query = Some Structured ->
   exists h',
     ServerJs.serve_route ServerJs.Unreadable query h =
     (Return
        (res_error 500 "Internal server error"
           (Some "search.toLowerCase is not a function")), h')) /\
  ServerJs.serve_route (ServerJs.ParsedObject None) query h =
  (Return (res_error 500 "Database not loaded" None), h) /\
  (exists e, ServerJs.serve_route ServerJs.ParsedNull query h = (Throw e, h))
  /\
  ServerJs.products_route None query h =
  (Return (res_error 500 "Database not loaded" None), h) /\
  ServerJs.products_route (Some (mkDatabase None)) query h =
  (Return (res_error 500 "Database not loaded" None), h).
Proof.
  assert (Hrun : exists h',
            ServerJs.serve_route ServerJs.Unreadable query h =
            (Return (respond (route_result query [])), h')).
  { cbv beta iota zeta delta
      [ServerJs.serve_route ServerJs.load bind alloc ret].
    destruct (ServerJs_products_route_run (fresh (dom h)) [] query
                (<[fresh (dom h) := []]> h) (lookup_insert_eq _ _ _))
      as [h' [E _]].
    exists h'. exact E. }
  destruct Hrun as [h' E].
  split; [|split; [|split; [reflexivity|split; [|split; reflexivity]]]].
  - intros Hs. exists h'. rewrite E. unfold route_result.
    destruct (req_search query) as [[term|]|]; [| contradiction |];
      (destruct (req_category query) as [[value|]|];
       rewrite query_result_nil; reflexivity).
  - intros Hs. exists h'. rewrite E. unfold route_result. rewrite Hs.
    reflexivity.
  - eexists. reflexivity.
Qed.

(** C9 at the empty query: after a failed load it is answered with the
    empty list. *)
Lemma C9_load_failure_falls_back_to_empty_store_witness :
  exists h',
    ServerJs.serve_route (R := SampleRuntime.runtime) ServerJs.Unreadable
      (mkReqQuery None None None None) ∅ =
    (Return (res_json []), h').
Proof.
  apply (C9_load_failure_falls_back_to_empty_store SampleRuntime.runtime
           (mkReqQuery None None None None) ∅).
  discriminate.
Defined.

(** C9 as stated fails: after a failed load the request with no parameter
    is answered with status 200, not with a server-side error. *)
Lemma C9_failed_load_is_answered_with_success :
  exists response,
    fst (ServerJs.serve (R := SampleRuntime.runtime) ServerJs.Unreadable
           SampleRuntime.no_query ∅) = Return response /\
    status response = 200%nat /\
    body response = ProductList [] /\
    ~ (500 <= status response)%nat.
Proof.
  exists (res_json []). split; [vm_compute; reflexivity|].
  split; [reflexivity|]. split; [reflexivity|]. simpl. lia.
Qed.

(** C10: a [category] parameter equal to the empty string and a [search]
    parameter equal to the empty string are treated as absent parameters:
    each handler answers as it does without the parameter, and the filter is
    not run, so that the array stays the one it was. *)
Theorem C10_empty_parameters_are_skipped (R : Runtime)
    (db : option Database) (category sort filter search : option string)
    (p : loc) (h : heap) :
  ServerJs.products_handler db (mkQuery (Some "") sort filter search) h =
  ServerJs.products_handler db (mkQuery None sort filter search) h /\
  ServerJs.products_handler db (mkQuery category sort filter (Some "")) h =
  ServerJs.products_handler db (mkQuery category sort filter None) h /\
  CustomServer.products_handler db (mkQuery (Some "") sort filter search) h =
  CustomServer.products_handler db (mkQuery None sort filter search) h /\
  CustomServer.products_handler db (mkQuery category sort filter (Some "")) h
  = CustomServer.products_handler db (mkQuery category sort filter None) h /\
  filterByCategory (Some "") p h = (Return p, h) /\
  ServerJs.filterBySearch (Some "") p h = (Return p, h) /\
  CustomServer.filterBySearch (Some "") p h = (Return p, h).
Proof. repeat split; reflexivity. Qed.

(** * Further properties of the routes *)

(** When the route answers with an error: the [search] parameter is an
    array or object, or the search reads a missing [description]. *)
Lemma route_result_Throw {R : Runtime} (query : ReqQuery)
    (ps : list Product) (e : string) :
  route_result query ps = Throw e <->
  (req_search query = Some Structured /\
   e = "search.toLowerCase is not a function") \/
  (e = "Cannot read properties of undefined (reading 'toLowerCase')" /\
   exists term product,
     req_search query = Some (Text term) /\ term <> "" /\
     In product ps /\
     passes_category_param (req_category query) product /\
     passes_availability (text_of (req_filter query)) product /\
     search_reads_missing_description term product).
Proof.
  unfold route_result, query_result, text_query. simpl.
  pose proof (ServerJs_kept_by_search_Throw (text_of (req_search query))
                (kept_by_availability
                   (or_default (text_of (req_filter query)) "all")
                   (kept_by_category (text_of (req_category query))
                      match req_category query with
                      | Some Structured => []
                      | _ => ps
                      end))) as Hthrow.
  assert (Hmessage : forall e',
            kept_by_search ServerJs.searchCallback
              (text_of (req_search query))
              (kept_by_availability
                 (or_default (text_of (req_filter query)) "all")
                 (kept_by_category (text_of (req_category query))
                    match req_category query with
                    | Some Structured => []
                    | _ => ps
                    end)) = Throw e' ->
            e' = "Cannot read properties of undefined (reading 'toLowerCase')").
  { intros e' H. unfold kept_by_search in H.
    destruct (text_of (req_search query)) as [term|]; [|discriminate].
    destruct (term =? ""); [discriminate|].
    apply filter_elements_throw in H as [p [_ Hp]].
    destruct (ServerJs_searchCallback_cases term p) as [[_ E'] | [_ E']];
      congruence. }
  assert (Hguards : forall product,
            In product
              (kept_by_availability
                 (or_default (text_of (req_filter query)) "all")
                 (kept_by_category (text_of (req_category query))
                    match req_category query with
                    | Some Structured => []
                    | _ => ps
                    end)) <->
            In product ps /\
            passes_category_param (req_category query) product /\
            passes_availability (text_of (req_filter query)) product).
  { intros product. rewrite kept_by_availability_In, kept_by_category_In.
    unfold passes_category_param.
    destruct (req_category query) as [[value|]|]; simpl; tauto. }
  destruct (req_search query) as [[term|]|] eqn:Hs; simpl text_of in *.
  - destruct (kept_by_search ServerJs.searchCallback (Some term) _)
      as [kept|e'] eqn:Hk.
    + split; [discriminate|].
      intros [[H _] | [_ [term' [product [Ht [Hne [Hin [Hc [Ha Hm]]]]]]]]];
        [discriminate|].
      injection Ht as <-.
      destruct Hthrow as [_ Hthrow].
      destruct Hthrow as [e' He']; [|discriminate].
      exists term, product. split; [reflexivity|]. split; [exact Hne|].
      split; [apply Hguards; auto | exact Hm].
    + split.
      * intros H. injection H as <-. right.
        split; [apply Hmessage; reflexivity|].
        destruct Hthrow as [Hthrow _].
        destruct Hthrow as [term' [p [Ht [Hne [Hin Hm]]]]];
          [exists e'; reflexivity|].
        injection Ht as <-.
        apply Hguards in Hin as [Hin [Hc Ha]].
        exists term, p. auto 10.
      * intros [[H _] | [-> _]]; [discriminate|].
        rewrite (Hmessage e' eq_refl). reflexivity.
  - split.
    + intros H. injection H as <-. left. split; reflexivity.
    + intros [[_ ->] | [_ [term [product [H _]]]]];
        [reflexivity | discriminate].
  - split; [|intros [[H _] | [_ [term [product [H _]]]]]; discriminate].
    unfold kept_by_search. simpl. discriminate.
Qed.


(** X1: a request to the handler of [server.js] has no effect on the
    answers to come: after any first request, and so after the same request
    too, the answer to a request is the one it gets on the untouched heap. *)
Theorem ServerJs_requests_are_isolated (R : Runtime) (db : option Database)
    (first second : Query) (h : heap) :
  fst (ServerJs.products_handler db second
         (snd (ServerJs.products_handler db first h))) =
  fst (ServerJs.products_handler db second h).
Proof.
  destruct db as [[[store|]]|]; [| reflexivity | reflexivity].
  destruct (h !! store) as [ps|] eqn:Hstore.
  - destruct (ServerJs_products_handler_run store ps first h Hstore)
      as [h1 [E1 Hsub]].
    rewrite E1. simpl snd.
    assert (Hstore1 : h1 !! store = Some ps)
      by (eapply lookup_weaken; eassumption).
    destruct (ServerJs_products_handler_run store ps second h Hstore)
      as [h2 [E2 _]].
    destruct (ServerJs_products_handler_run store ps second h1 Hstore1)
      as [h3 [E3 _]].
    rewrite E2, E3. reflexivity.
  - assert (E : ServerJs.products_handler
                  (Some (mkDatabase (Some store))) first h =
                (Return
                   (res_error 500 "Internal server error"
                      (Some "dangling array reference")), h)).
    { cbv beta iota zeta delta
        [ServerJs.products_handler try_catch products spread bind contents].
      rewrite Hstore. reflexivity. }
    rewrite E. reflexivity.
Qed.

(** X2: a product is in a list answer of the products route of
    [server.js] exactly when it is in the store and passes the guards of the
    three stages together: the filters are a conjunction, whatever the sort
    key. The lowercase forms are those of the runtime; a category parameter
    that is an array or object keeps no product. *)
Theorem ServerJs_answer_is_the_conjunction (R : Runtime) (store : loc)
    (ps l : list Product) (query : ReqQuery) (h h' : heap) :
  h !! store = Some ps ->
  ServerJs.products_route (Some (mkDatabase (Some store))) query h =
  (Return (res_json l), h') ->
  forall product,
    In product l <->
    In product ps /\
    passes_category_param (req_category query) product /\
    passes_availability (text_of (req_filter query)) product /\
    passes_search (text_of (req_search query)) product.
Proof.
  intros Hstore Hrun.
  destruct (ServerJs_products_route_run store ps query h Hstore)
    as [h1 [E _]].
  rewrite E in Hrun. injection Hrun as Hresp _.
  destruct (route_result query ps) as [result|e] eqn:Hresult;
    [|discriminate].
  injection Hresp as <-.
  apply route_result_In, Hresult.
Qed.

(** X2 at a concrete store: "on-sale" answers with Alpha alone. *)
Lemma ServerJs_answer_is_the_conjunction_witness :
  In SampleRuntime.alpha [SampleRuntime.alpha] <->
  In SampleRuntime.alpha [SampleRuntime.zeta; SampleRuntime.alpha] /\
  passes_category_param None SampleRuntime.alpha /\
  passes_availability (Some "on-sale") SampleRuntime.alpha /\
  passes_search (R := SampleRuntime.runtime) None SampleRuntime.alpha.
Proof.
  apply (ServerJs_answer_is_the_conjunction SampleRuntime.runtime 1%positive
           [SampleRuntime.zeta; SampleRuntime.alpha] [SampleRuntime.alpha]
           (mkReqQuery None None (Some (Text "on-sale")) None)
           {[1%positive := [SampleRuntime.zeta; SampleRuntime.alpha]]}
           (snd (ServerJs.products_route (R := SampleRuntime.runtime)
                   (Some (mkDatabase (Some 1%positive)))
                   (mkReqQuery None None (Some (Text "on-sale")) None)
                   {[1%positive :=
                       [SampleRuntime.zeta; SampleRuntime.alpha]]}))
           (singleton_store _ _)).
  vm_compute. reflexivity.
Defined.

(** X3: on a loaded store the products route of [server.js] answers with
    an error 500 exactly when the [search] parameter is an array or object,
    or it is a non-empty string and some product of the store that passes
    the category and availability guards has no [description] and a name
    whose lowercase form does not hold the lowercase term. The error is
    "Internal server error"; its message is that of the failed call of
    [search.toLowerCase] in the first case and that of the failed read of
    [description] in the second. *)
Theorem ServerJs_internal_error_iff (R : Runtime) (store : loc)
    (ps : list Product) (query : ReqQuery) (h : heap) :
  h !! store = Some ps ->
  ((exists error message h',
      ServerJs.products_route (Some (mkDatabase (Some store))) query h =
      (Return (res_error 500 error message), h')) <->
   (req_search query = Some Structured \/
    exists term product,
      req_search query = Some (Text term) /\ term <> "" /\
      In product ps /\
      passes_category_param (req_category query) product /\
      passes_availability (text_of (req_filter query)) product /\
      search_reads_missing_description term product)) /\
  (forall error message h',
     ServerJs.products_route (Some (mkDatabase (Some store))) query h =
     (Return (res_error 500 error message), h') ->
     error = "Internal server error" /\
     (req_search query = Some Structured ->
      message = Some "search.toLowerCase is not a function") /\
     (req_search query <> Some Structured ->
      message =
      Some "Cannot read properties of undefined (reading 'toLowerCase')")).
Proof.
  intros Hstore.
  destruct (ServerJs_products_route_run store ps query h Hstore)
    as [h1 [E _]].
  pose proof (route_result_Throw query ps) as Hthrow.
  destruct (route_result query ps) as [result|e]; simpl in E.
  - split.
    + split.
      * intros [error [message [h' H]]]. rewrite E in H. discriminate.
      * intros [Hs | Hmiss].
        -- assert (H : Return result =
                       Throw "search.toLowerCase is not a function")
             by (apply Hthrow; left; split; [exact Hs | reflexivity]).
           discriminate.
        -- assert (H : Return result =
                       Throw "Cannot read properties of undefined (reading 'toLowerCase')")
             by (apply Hthrow; right; split; [reflexivity | exact Hmiss]).
           discriminate.
    + intros error message h' H. rewrite E in H. discriminate.
  - destruct (proj1 (Hthrow e) eq_refl) as [[Hs ->] | [-> Hmiss]].
    + split.
      * split; [intros _; left; exact Hs|].
        intros _. eexists; eexists; exists h1. exact E.
      * intros error message h' H. rewrite E in H.
        injection H as <- <- _. split; [reflexivity|].
        split; [reflexivity | contradiction].
    + split.
      * split; [intros _; right; exact Hmiss|].
        intros _. eexists; eexists; exists h1. exact E.
      * intros error message h' H. rewrite E in H.
        injection H as <- <- _. split; [reflexivity|].
        split; [|reflexivity].
        destruct Hmiss as [term [product [Hs _]]]. rewrite Hs. discriminate.
Qed.

(** X3 at a concrete store: the search for "zet" on the records of the
    specification's examples is answered with the error, because of
    Alpha. *)
Lemma ServerJs_internal_error_iff_witness :
  exists error message h',
    ServerJs.products_route (R := SampleRuntime.runtime)
      (Some (mkDatabase (Some 1%positive)))
      (mkReqQuery None None None (Some (Text "zet")))
      {[1%positive := [SampleRuntime.zeta; SampleRuntime.alpha]]} =
    (Return (res_error 500 error message), h').
Proof.
  apply (ServerJs_internal_error_iff SampleRuntime.runtime 1%positive
           [SampleRuntime.zeta; SampleRuntime.alpha]
           (mkReqQuery None None None (Some (Text "zet")))
           {[1%positive := [SampleRuntime.zeta; SampleRuntime.alpha]]}
           (singleton_store _ _)).
  right. exists "zet", SampleRuntime.alpha.
  split; [reflexivity|]. split; [discriminate|].
  split; [right; left; reflexivity|].
  split; [exact I|]. split; [split; discriminate|].
  split; reflexivity.
Defined.

(** X6: the sort leaves an array that is in the order of its comparator
    exactly as it is, heap included; so does the sort by "newest" on
    products none of whose [createdAt] is a date, whose differences are all
    [NaN]. *)
Theorem sortProducts_keeps_what_is_in_order (R : Runtime) (sortBy : string)
    (p : loc) (l : list Product) (h : heap) :
  h !! p = Some l ->
  (StronglySorted (not_after (compareFn sortBy)) l ->
   sortProducts sortBy p h = (Return p, h)) /\
  (Forall (fun product => Date_parse (createdAt product) = None) l ->
   sortProducts "newest" p h = (Return p, h)).
Proof.
  intros Hp.
  assert (Hid : forall key,
            StronglySorted (not_after (compareFn key)) l ->
            sortProducts key p h = (Return p, h)).
  { intros key Hs. unfold sortProducts.
    rewrite (Array_sort_run _ p l h Hp), sort_elements_in_order by exact Hs.
    rewrite insert_id by exact Hp. reflexivity. }
  split; [apply Hid|].
  intros Hnone. apply Hid, all_not_after_sorted.
  intros a b Ha _. rewrite List.Forall_forall in Hnone.
  unfold not_after, compareFn. simpl.
  rewrite (Hnone a Ha).
  destruct (Date_parse (createdAt b)); discriminate.
Qed.

(** X6 at a concrete store: Alpha (20) before Zeta (50) is in the order
    of "price-low", and the sort changes nothing. *)
Lemma sortProducts_keeps_what_is_in_order_witness :
  sortProducts (R := SampleRuntime.runtime) "price-low" 1%positive
    {[1%positive := [SampleRuntime.alpha; SampleRuntime.zeta]]} =
  (Return 1%positive,
   {[1%positive := [SampleRuntime.alpha; SampleRuntime.zeta]]}).
Proof.
  apply (proj1
           (sortProducts_keeps_what_is_in_order SampleRuntime.runtime
              "price-low" 1%positive
              [SampleRuntime.alpha; SampleRuntime.zeta]
              {[1%positive := [SampleRuntime.alpha; SampleRuntime.zeta]]}
              (singleton_store _ _))).
  repeat constructor; unfold not_after; vm_compute; discriminate.
Defined.

(** X7: the category parameter is a string, or an array or object, and
    the comparison is strict: on a store whose [categoryId]s are all
    numbers, every request of the products route of [server.js] with a
    category parameter that is a non-empty string other than "all" finds no
    product, as does a request whose category parameter is an array or
    object on any store. The answer is the empty list when the [search]
    parameter is absent or a string, whatever the other parameters, and the
    error 500 of the failed call of [search.toLowerCase] when it is an array
    or object. *)
Theorem category_never_matches_a_number (R : Runtime) (store : loc)
    (ps : list Product) (query : ReqQuery) (h : heap) :
  h !! store = Some ps ->
  req_category query = Some Structured \/
  (exists value,
     req_category query = Some (Text value) /\ value <> "" /\
     value <> "all" /\
     Forall (fun product => exists n, categoryId product = IdNum n) ps) ->
  (req_search query <> Some Structured ->
   fst (ServerJs.products_route (Some (mkDatabase (Some store))) query h) =
   Return (res_json [])) /\
  (req_search query = Some Structured ->
   fst (ServerJs.products_route (Some (mkDatabase (Some store))) query h) =
   Return
     (res_error 500 "Internal server error"
        (Some "search.toLowerCase is not a function"))).
Proof.
  intros Hstore Hcategory.
  destruct (ServerJs_products_route_run store ps query h Hstore)
    as [h1 [E _]].
  rewrite E. simpl. unfold route_result. split.
  - intros Hs.
    assert (Hcat : kept_by_category (text_of (req_category query))
                     match req_category query with
                     | Some Structured => []
                     | _ => ps
                     end = []).
    { destruct Hcategory as [-> | [value [-> [Hne [Hall Hnum]]]]];
        [reflexivity|].
      unfold kept_by_category. simpl.
      apply String.eqb_neq in Hne, Hall.
      unfold truthy, strict_neq. rewrite Hne, Hall. simpl.
      apply filter_none. intros x Hx.
      rewrite List.Forall_forall in Hnum. destruct (Hnum x Hx) as [n ->].
      reflexivity. }
    destruct (req_search query) as [[term|]|]; [| contradiction |];
      rewrite (query_result_after_empty_category _ (text_query query) _ Hcat);
      reflexivity.
  - intros ->. reflexivity.
Qed.

(** X7 at a concrete store: the gadget has the category 7, a number, and
    the request for the category "7" finds nothing. *)
Lemma category_never_matches_a_number_witness :
  fst (ServerJs.products_route (R := SampleRuntime.runtime)
         (Some (mkDatabase (Some 1%positive)))
         (mkReqQuery (Some (Text "7")) None None None)
         {[1%positive := [SampleRuntime.gadget]]}) =
  Return (res_json []).
Proof.
  refine (proj1
            (category_never_matches_a_number SampleRuntime.runtime 1%positive
               [SampleRuntime.gadget]
               (mkReqQuery (Some (Text "7")) None None None)
               {[1%positive := [SampleRuntime.gadget]]}
               (singleton_store _ _) _) _).
  - right. exists "7". split; [reflexivity|].
    split; [discriminate|]. split; [discriminate|].
    constructor; [exists 7%Z; reflexivity | constructor].
  - discriminate.
Defined.

(** X8: a list answer of [server.js] is a fixed point of its request: a
    store that holds the answer is answered with the very same list, for a
    runtime whose [localeCompare] is a collation and, under "newest", for
    products whose [createdAt] is a date. *)
Theorem ServerJs_answer_is_a_fixed_point (R : Runtime) (C : Collation R)
    (store store' : loc) (ps l : list Product) (query : Query)
    (h h' : heap) :
  h !! store = Some ps ->
  h' !! store' = Some l ->
  (or_default (query_sort query) "name" = "newest" -> Forall has_date ps) ->
  fst (ServerJs.products_handler (Some (mkDatabase (Some store))) query h) =
  Return (res_json l) ->
  fst (ServerJs.products_handler (Some (mkDatabase (Some store'))) query h') =
  Return (res_json l).
Proof.
  intros Hstore Hstore' Hdate Hanswer.
  destruct (ServerJs_products_handler_run store ps query h Hstore)
    as [h1 [E1 _]].
  destruct (ServerJs_products_handler_run store' l query h' Hstore')
    as [h2 [E2 _]].
  rewrite E1 in Hanswer. rewrite E2. simpl fst in *.
  destruct (query_result ServerJs.searchCallback query ps) as [l'|] eqn:Hq;
    [|discriminate].
  injection Hanswer as ->.
  rewrite (query_result_fixed_point query ps l Hdate Hq). reflexivity.
Qed.

(** X8 at a concrete store: the answer [Alpha; Zeta] to the empty query is
    the answer to the empty query on a store that holds it. *)
Lemma ServerJs_answer_is_a_fixed_point_witness :
  fst (ServerJs.products_handler (R := SampleRuntime.runtime)
         (Some (mkDatabase (Some 1%positive))) SampleRuntime.no_query
         {[1%positive := [SampleRuntime.alpha; SampleRuntime.zeta]]}) =
  Return (res_json [SampleRuntime.alpha; SampleRuntime.zeta]).
Proof.
  apply (ServerJs_answer_is_a_fixed_point SampleRuntime.runtime
           sample_collation 1%positive 1%positive
           [SampleRuntime.zeta; SampleRuntime.alpha]
           [SampleRuntime.alpha; SampleRuntime.zeta] SampleRuntime.no_query
           {[1%positive := [SampleRuntime.zeta; SampleRuntime.alpha]]}
           {[1%positive := [SampleRuntime.alpha; SampleRuntime.zeta]]}
           (singleton_store _ _) (singleton_store _ _)).
  - discriminate.
  - vm_compute. reflexivity.
Defined.

(** X9: the handler of [server.js] repeats no product: when the [id]s of
    the store are pairwise distinct, so are the [id]s of a list answer. *)
Theorem ServerJs_answer_keeps_ids_distinct (R : Runtime) (store : loc)
    (ps l : list Product) (query : Query) (h : heap) :
  h !! store = Some ps ->
  List.NoDup (map id ps) ->
  fst (ServerJs.products_handler (Some (mkDatabase (Some store))) query h) =
  Return (res_json l) ->
  List.NoDup (map id l).
Proof.
  intros Hstore Hdistinct Hanswer.
  destruct (ServerJs_products_handler_run store ps query h Hstore)
    as [h1 [E _]].
  rewrite E in Hanswer. simpl fst in Hanswer. unfold query_result in Hanswer.
  destruct (kept_by_category_filter (query_category query) ps) as [f1 E1].
  destruct (kept_by_availability_filter
              (or_default (query_filter query) "all")
              (kept_by_category (query_category query) ps)) as [f2 E2].
  destruct (kept_by_search _ _ _) as [kept|] eqn:Hsearch; [|discriminate].
  destruct (ServerJs_kept_by_search_filter _ _ _ Hsearch) as [f3 E3].
  injection Hanswer as <-.
  apply Permutation_NoDup with (map id kept).
  - apply Permutation_map. symmetry. apply sort_elements_perm.
  - rewrite E3, E2, E1. repeat apply NoDup_map_filter. exact Hdistinct.
Qed.

(** X9 at a concrete store. *)
Lemma ServerJs_answer_keeps_ids_distinct_witness :
  List.NoDup (map id [SampleRuntime.alpha; SampleRuntime.zeta]).
Proof.
  apply (ServerJs_answer_keeps_ids_distinct SampleRuntime.runtime 1%positive
           [SampleRuntime.zeta; SampleRuntime.alpha]
           [SampleRuntime.alpha; SampleRuntime.zeta] SampleRuntime.no_query
           {[1%positive := [SampleRuntime.zeta; SampleRuntime.alpha]]}
           (singleton_store _ _)).
  - repeat constructor; simpl; intuition discriminate.
  - vm_compute. reflexivity.
Defined.

(** X10: the posts route of [server.js] answers a database that has
    posts with status 200 and exactly the posts whose [userId] is the route
    parameter as a string, no more of them than the store holds; a post
    whose [userId] is a number or is missing is never in the answer,
    whatever the parameter. *)
Theorem posts_handler_keeps_the_posts_of_the_user (l : list UserPosts.Post)
    (userId : string) :
  exists kept,
    UserPosts.posts_handler (Some (UserPosts.mkDatabase (Some l))) userId =
    UserPosts.mkResponse 200 (UserPosts.PostList kept) /\
    (forall post,
       In post kept <->
       In post l /\ UserPosts.userId post = Some (IdStr userId)) /\
    (length kept <= length l)%nat /\
    (forall post n,
       UserPosts.userId post = Some (IdNum n) -> ~ In post kept) /\
    (forall post, UserPosts.userId post = None -> ~ In post kept).
Proof.
  exists (List.filter (UserPosts.owned_by userId) l).
  split; [reflexivity|].
  assert (Hiff : forall post,
            In post (List.filter (UserPosts.owned_by userId) l) <->
            In post l /\ UserPosts.userId post = Some (IdStr userId)).
  { intros post. rewrite filter_In. unfold UserPosts.owned_by.
    destruct (UserPosts.userId post) as [v|].
    - rewrite strict_eq_string_spec. split; intros [H1 H2];
        (split; [exact H1 | congruence]).
    - split; intros [_ H]; discriminate. }
  split; [exact Hiff|]. split.
  - apply List.filter_length_le.
  - split; intros post; [intros n|]; intros E Hin;
      apply Hiff in Hin as [_ Hin]; congruence.
Qed.

(** X10 at a concrete store: the parameter "1" finds the post of the
    user "1" and not the post of the user 1, a number. *)
Lemma posts_handler_keeps_the_posts_of_the_user_witness :
  UserPosts.posts_handler
    (Some
       (UserPosts.mkDatabase
          (Some
             [UserPosts.mkPost (IdNum 10) (Some (IdNum 1)) "first";
              UserPosts.mkPost (IdNum 11) (Some (IdStr "1")) "second"])))
    "1" =
  UserPosts.mkResponse 200
    (UserPosts.PostList
       [UserPosts.mkPost (IdNum 11) (Some (IdStr "1")) "second"]) /\
  ~ In (UserPosts.mkPost (IdNum 10) (Some (IdNum 1)) "first")
      [UserPosts.mkPost (IdNum 11) (Some (IdStr "1")) "second"].
Proof.
  destruct (posts_handler_keeps_the_posts_of_the_user
              [UserPosts.mkPost (IdNum 10) (Some (IdNum 1)) "first";
               UserPosts.mkPost (IdNum 11) (Some (IdStr "1")) "second"] "1")
    as [kept [E [_ [_ [Hnum _]]]]].
  injection E as <-. split; [reflexivity|].
  apply (Hnum _ 1%Z). reflexivity.
Defined.

(** X11: the inline middleware of [server.js] sets its two headers first,
    hands the request on exactly once, as its last step, and never answers
    itself. When [NODE_ENV] is "production" or [VERCEL] is set to a
    non-empty string it hands on at once, with no log line and no timer;
    otherwise it logs one line and hands on from a timer whose delay, for a
    random number in [0, 1), lies between 200 and 700 (the bounds hold of
    the rounded sum as well). *)
Theorem inline_middleware_hands_on_once (env : Middleware.Env)
    (req : Middleware.Request) (c : Middleware.Clock) :
  let effects := Middleware.inline env req c in
  length (List.filter Middleware.passes_on effects) = 1%nat /\
  List.filter Middleware.responds effects = [] /\
  (exists rest,
     effects =
     Middleware.SetHeader "X-API-Version" "1.0"
     :: Middleware.SetHeader "X-Response-Time" (Middleware.now_string c)
     :: rest /\
     List.filter Middleware.is_header rest = [] /\
     exists before last,
       rest = before ++ [last] /\ Middleware.passes_on last = true) /\
  (Middleware.node_env_production env = true \/
   truthy (Middleware.VERCEL env) = true ->
   effects =
   [Middleware.SetHeader "X-API-Version" "1.0";
    Middleware.SetHeader "X-Response-Time" (Middleware.now_string c);
    Middleware.Next]) /\
  (Middleware.node_env_production env = false ->
   truthy (Middleware.VERCEL env) = false ->
   effects =
   [Middleware.SetHeader "X-API-Version" "1.0";
    Middleware.SetHeader "X-Response-Time" (Middleware.now_string c);
    Middleware.ConsoleLog (Middleware.log_line req c);
    Middleware.SetTimeoutNext (Middleware.delay c)] /\
   ((0 <= Middleware.random c)%Q -> (Middleware.random c < 1)%Q ->
    (200 <= Middleware.delay c)%Q /\ (Middleware.delay c <= 700)%Q)).
Proof.
  unfold Middleware.inline, Middleware.isProduction. simpl.
  destruct (Middleware.node_env_production env);
    destruct (truthy (Middleware.VERCEL env)); simpl;
    (split; [reflexivity|]); (split; [reflexivity|]);
    (split; [eexists; split; [reflexivity|]; split; [reflexivity|] |]).
  1,3,5: exists [], Middleware.Next; split; reflexivity.
  4: exists [Middleware.ConsoleLog (Middleware.log_line req c)],
       (Middleware.SetTimeoutNext (Middleware.delay c)); split; reflexivity.
  1-3: split; [reflexivity | discriminate].
  split; [intros [H | H]; discriminate|].
  intros _ _. split; [reflexivity | apply delay_bounds].
Qed.

(** X11 on Vercel: a request is not delayed. *)
Lemma inline_middleware_hands_on_once_witness :
  Middleware.inline (Middleware.mkEnv None (Some "1"))
    (Middleware.mkRequest "GET" "/api/products" None)
    (Middleware.mkClock 1700000000000 "2023-11-14T22:13:20.000Z" (1 # 2)) =
  [Middleware.SetHeader "X-API-Version" "1.0";
   Middleware.SetHeader "X-Response-Time" "1700000000000";
   Middleware.Next].
Proof.
  apply (inline_middleware_hands_on_once (Middleware.mkEnv None (Some "1"))
           (Middleware.mkRequest "GET" "/api/products" None)
           (Middleware.mkClock 1700000000000 "2023-11-14T22:13:20.000Z"
              (1 # 2))).
  right. reflexivity.
Defined.


